(** * JustPlay (football-project): the client-side state layer of src/app.js

    A shallow embedding of the module-level state of [app.js], of its
    gateway adapter, session store, domain cache, navigation, match
    views and modal helpers, followed by the properties the
    specification states about them and by further properties of the
    same functions: what the adapter returns on every answer, what the
    session store and the history give back, what a modal leaves behind,
    and what the forms and the match lists do at their edges.

    Data is kept the way the script sees it: every record that comes off
    the wire or out of [localStorage] is a decoded JSON value, read with
    JavaScript's own property access, truthiness and [===]. *)

From Stdlib Require Import ZArith String Ascii List Bool Lia DecimalString.
From stdpp Require Import base option list gmap strings.

Local Open Scope string_scope.
Local Open Scope Z_scope.

(* ================================================================== *)
(** ** JavaScript values *)
(* ================================================================== *)

(** Decoded JSON, plus [undefined] and [NaN], which the script produces
    itself (a missing property, [parseInt] of a blank field).  Numbers are
    the integers: every number the modelled code computes with is a count,
    a status code or a time value.  An object is its list of own
    properties. *)
#[warning="-register-all"]
Inductive value : Type :=
| VUndefined
| VNull
| VBool (b : bool)
| VNum (n : Z)
| VNaN
| VStr (s : string)
| VArr (xs : list value)
| VObj (fs : list (string * value)).

Inductive exn : Type :=
| TypeError (msg : string)
| SyntaxError (msg : string)
| Error (msg : string).

(** [err.message] *)
Definition message (e : exn) : string :=
  match e with TypeError m | SyntaxError m | Error m => m end.

(** The completion of an expression: a value, or a thrown exception. *)
Inductive result (A : Type) : Type :=
| Ok (a : A)
| Raise (e : exn).
Arguments Ok {A} a.
Arguments Raise {A} e.

Definition rbind {A B} (r : result A) (k : A -> result B) : result B :=
  match r with Ok a => k a | Raise e => Raise e end.

Notation "'let?' x := r 'in' k" := (rbind r (fun x => k))
  (at level 10, x name, r at level 100, k at level 200).

(** ToBoolean *)
Definition truthy (v : value) : bool :=
  match v with
  | VUndefined | VNull | VNaN => false
  | VBool b => b
  | VNum n => negb (n =? 0)
  | VStr s => negb (String.eqb s "")
  | VArr _ | VObj _ => true
  end.

(** [a || b] on values that are already computed. *)
Definition js_or (a b : value) : value := if truthy a then a else b.

(** [a === b].  Two objects (or arrays) are equal only when they are the
    same reference; every comparison in the functions below is between
    values that come from different decodings (a loaded record against
    the stored snapshot, against another collection, or against a string
    out of the markup or a form), so two objects never are. *)
Definition strict_eq (a b : value) : bool :=
  match a, b with
  | VUndefined, VUndefined => true
  | VNull, VNull => true
  | VBool x, VBool y => Bool.eqb x y
  | VNum x, VNum y => x =? y
  | VStr x, VStr y => String.eqb x y
  | _, _ => false
  end.

(** SameValueZero, the comparison of [Array.prototype.includes]. *)
Definition same_value_zero (a b : value) : bool :=
  match a, b with
  | VNaN, VNaN => true
  | _, _ => strict_eq a b
  end.

Definition string_of_Z (n : Z) : string := NilZero.string_of_int (Z.to_int n).

Fixpoint join (sep : string) (l : list string) : string :=
  match l with
  | [] => ""
  | [x] => x
  | x :: rest => x +:+ sep +:+ join sep rest
  end.

(** ToString, as a template literal and [new Error(msg)] apply it. *)
Fixpoint to_string (v : value) : string :=
  match v with
  | VUndefined => "undefined"
  | VNull => "null"
  | VBool true => "true"
  | VBool false => "false"
  | VNum n => string_of_Z n
  | VNaN => "NaN"
  | VStr s => s
  | VArr xs =>
      join "," (List.map (fun x => match x with
                                   | VUndefined | VNull => ""
                                   | _ => to_string x
                                   end) xs)
  | VObj _ => "[object Object]"
  end.

Fixpoint lookup_field (k : string) (fs : list (string * value)) : value :=
  match fs with
  | [] => VUndefined
  | (k', v) :: rest => if String.eqb k k' then v else lookup_field k rest
  end.

(** [o.k = v] on an object literal under construction: an existing
    property keeps its place, a new one goes last. *)
Fixpoint set_field (k : string) (v : value) (fs : list (string * value))
  : list (string * value) :=
  match fs with
  | [] => [(k, v)]
  | (k', v') :: rest =>
      if String.eqb k k' then (k, v) :: rest else (k', v') :: set_field k v rest
  end.

Definition nullish (v : value) : bool :=
  match v with VUndefined | VNull => true | _ => false end.

Definition cannot_read (v : value) (k : string) : exn :=
  TypeError ("Cannot read properties of " +:+ to_string v +:+
             " (reading '" +:+ k +:+ "')").

(** A string is UTF-8 text, one [ascii] per byte: a character outside
    ASCII is the bytes of its encoding.  JavaScript counts and indexes a
    string by UTF-16 code units: one for a character of up to three
    bytes, two (a surrogate pair) for a character of four. *)
Definition byte (c : ascii) : Z := Z.of_nat (nat_of_ascii c).

Definition text (bytes : list Z) : string :=
  string_of_list_ascii (List.map (fun b => ascii_of_nat (Z.to_nat b)) bytes).

(** [s.length] *)
Fixpoint code_units (s : string) : Z :=
  match s with
  | EmptyString => 0
  | String c s' =>
      (if (128 <=? byte c) && (byte c <? 192) then 0
       else if 240 <=? byte c then 2
       else 1) + code_units s'
  end.

(** [v.k] for the property names the script reads (never an index). *)
Definition get (v : value) (k : string) : result value :=
  match v with
  | VUndefined | VNull => Raise (cannot_read v k)
  | VObj fs => Ok (lookup_field k fs)
  | VArr xs => Ok (if String.eqb k "length" then VNum (Z.of_nat (length xs))
                   else VUndefined)
  | VStr s => Ok (if String.eqb k "length" then VNum (code_units s)
                  else VUndefined)
  | VBool _ | VNum _ | VNaN => Ok VUndefined
  end.

(** [v?.k] *)
Definition get_opt (v : value) (k : string) : value :=
  match get v k with Ok x => x | Raise _ => VUndefined end.

Definition not_a_function (what : string) : exn :=
  TypeError (what +:+ " is not a function").

Fixpoint substring_of (p s : string) : bool :=
  String.prefix p s
  || match s with
     | EmptyString => false
     | String _ s' => substring_of p s'
     end.

(** The call [recv.includes(x)], once [recv] and [x] are evaluated:
    [Array.prototype.includes] on an array, [String.prototype.includes]
    on a string, and no such method on anything else JSON can hold. *)
Definition includes (recv x : value) : result bool :=
  match recv with
  | VArr xs => Ok (existsb (same_value_zero x) xs)
  | VStr s => Ok (substring_of (to_string x) s)
  | _ => Raise (not_a_function "includes")
  end.

(** [xs.find(cb)]: the first element the callback accepts, [undefined]
    when there is none; a throwing callback ends the search. *)
Fixpoint Array_find (cb : value -> result bool) (xs : list value) : result value :=
  match xs with
  | [] => Ok VUndefined
  | x :: rest =>
      let? hit := cb x in
      if hit then Ok x else Array_find cb rest
  end.

Fixpoint Array_filter (cb : value -> result bool) (xs : list value)
  : result (list value) :=
  match xs with
  | [] => Ok []
  | x :: rest =>
      let? keep := cb x in
      let? tl := Array_filter cb rest in
      Ok (if keep then x :: tl else tl)
  end.

Fixpoint Array_map {B} (cb : value -> result B) (xs : list value)
  : result (list B) :=
  match xs with
  | [] => Ok []
  | x :: rest =>
      let? y := cb x in
      let? tl := Array_map cb rest in
      Ok (y :: tl)
  end.

(** The own enumerable properties an object spread [{...v}] copies. *)
Fixpoint indexed (i : nat) (xs : list value) : list (string * value) :=
  match xs with
  | [] => []
  | x :: rest => (string_of_Z (Z.of_nat i), x) :: indexed (S i) rest
  end.

(** A code unit that stands alone, as text: a surrogate is written in
    three bytes like any other unit of its range. *)
Definition unit_text (u : Z) : string :=
  if u <? 128 then text [u]
  else if u <? 2048 then text [192 + u / 64; 128 + u mod 64]
  else text [224 + u / 4096; 128 + (u / 64) mod 64; 128 + u mod 64].

(** The two halves of the surrogate pair of a character of four bytes. *)
Definition surrogates (a b c d : ascii) : list value :=
  let cp := (byte a mod 8) * 262144 + (byte b mod 64) * 4096
            + (byte c mod 64) * 64 + byte d mod 64 in
  [VStr (unit_text (55296 + (cp - 65536) / 1024));
   VStr (unit_text (56320 + (cp - 65536) mod 1024))].

(** The code units of a string, each a string of its own. *)
Fixpoint chars (s : string) : list value :=
  match s with
  | EmptyString => []
  | String a s1 =>
      if byte a <? 192 then VStr (String a EmptyString) :: chars s1
      else
        match s1 with
        | EmptyString => [VStr s]
        | String b s2 =>
            if byte a <? 224
            then VStr (String a (String b EmptyString)) :: chars s2
            else
              match s2 with
              | EmptyString => [VStr s]
              | String c s3 =>
                  if byte a <? 240
                  then VStr (String a (String b (String c EmptyString)))
                       :: chars s3
                  else
                    match s3 with
                    | EmptyString => [VStr s]
                    | String d s4 => (surrogates a b c d ++ chars s4)%list
                    end
              end
        end
  end.

Definition spread (v : value) : list (string * value) :=
  match v with
  | VObj fs => fs
  | VArr xs => indexed 0 xs
  | VStr s => indexed 0 (chars s)
  | _ => []
  end.

(** JSON.parse (JSON.stringify v)) for a [v] that is not [undefined]:
    [NaN] becomes [null], an [undefined] property is dropped, an
    [undefined] array element becomes [null]. *)
Fixpoint json_copy (v : value) : value :=
  match v with
  | VNaN => VNull
  | VArr xs =>
      VArr (List.map (fun x => match x with
                               | VUndefined => VNull
                               | _ => json_copy x
                               end) xs)
  | VObj fs =>
      VObj (List.flat_map (fun kv => match kv with
                                     | (_, VUndefined) => []
                                     | (k, x) => [(k, json_copy x)]
                                     end) fs)
  | _ => v
  end.

(* ================================================================== *)
(** ** Strings, numbers and dates of the form fields *)
(* ================================================================== *)

(** The WhiteSpace and LineTerminator characters of ECMAScript, which
    [trim] and [parseInt] strip.  In one byte: TAB, LF, VT, FF, CR and
    SP. *)
Definition is_space (c : ascii) : bool :=
  let n := nat_of_ascii c in
  Nat.eqb n 32 || (Nat.leb 9 n && Nat.leb n 13).

(** In two bytes: U+00A0, the no-break space. *)
Definition is_space2 (a b : ascii) : bool :=
  (byte a =? 194) && (byte b =? 160).

(** In three bytes: U+1680; U+2000 to U+200A, U+2028, U+2029 and U+202F;
    U+205F; U+3000; U+FEFF. *)
Definition is_space3 (a b c : ascii) : bool :=
  ((byte a =? 225) && (byte b =? 154) && (byte c =? 128))
  || ((byte a =? 226) && (byte b =? 128)
      && (((128 <=? byte c) && (byte c <=? 138))
          || (byte c =? 168) || (byte c =? 169) || (byte c =? 175)))
  || ((byte a =? 226) && (byte b =? 129) && (byte c =? 159))
  || ((byte a =? 227) && (byte b =? 128) && (byte c =? 128))
  || ((byte a =? 239) && (byte b =? 187) && (byte c =? 191)).

(** [s.trimStart()] *)
Fixpoint trim_start (s : string) : string :=
  match s with
  | EmptyString => EmptyString
  | String a s1 =>
      if is_space a then trim_start s1
      else match s1 with
           | EmptyString => s
           | String b s2 =>
               if is_space2 a b then trim_start s2
               else match s2 with
                    | EmptyString => s
                    | String c s3 =>
                        if is_space3 a b c then trim_start s3 else s
                    end
           end
  end.

(** [s.trimEnd()]: what is left once the longest suffix of white space
    is cut off. *)
Fixpoint trim_end (s : string) : string :=
  match s with
  | EmptyString => EmptyString
  | String c s' =>
      if String.eqb (trim_start s) "" then EmptyString
      else String c (trim_end s')
  end.

(** [s.trim()] *)
Definition trim (s : string) : string := trim_end (trim_start s).

Definition digit_value (c : ascii) : option Z :=
  let n := Z.of_nat (nat_of_ascii c) in
  if (48 <=? n) && (n <=? 57) then Some (n - 48)
  else if (97 <=? n) && (n <=? 122) then Some (n - 87)
  else if (65 <=? n) && (n <=? 90) then Some (n - 55)
  else None.

(** The longest prefix of digits of the radix, read as a number; [acc] is
    [None] until a digit has been read. *)
Fixpoint read_digits (radix : Z) (acc : option Z) (s : string) : option Z :=
  match s with
  | EmptyString => acc
  | String c s' =>
      match digit_value c with
      | Some d =>
          if d <? radix
          then read_digits radix (Some (radix * default 0 acc + d)) s'
          else acc
      | None => acc
      end
  end.

Definition strip_sign (s : string) : bool * string :=
  match s with
  | String "-" s' => (true, s')
  | String "+" s' => (false, s')
  | _ => (false, s)
  end.

Definition strip_hex_prefix (s : string) : Z * string :=
  match s with
  | String "0" (String "x" s') => (16, s')
  | String "0" (String "X" s') => (16, s')
  | _ => (10, s)
  end.

(** [parseInt(s)] with no radix argument: a number, or [NaN] when no digit
    can be read. *)
Definition parseInt (s : string) : value :=
  let '(negative, s1) := strip_sign (trim_start s) in
  let '(radix, s2) := strip_hex_prefix s1 in
  match read_digits radix None s2 with
  | Some n => VNum (if negative then - n else n)
  | None => VNaN
  end.

(** [a > b] on numbers: false as soon as one side is [NaN]. *)
Definition js_gt (a b : value) : bool :=
  match a, b with
  | VNum x, VNum y => y <? x
  | _, _ => false
  end.

(** Days from 1970-01-01 to the civil date [y]-[m]-[d] (proleptic
    Gregorian calendar). *)
Definition days_from_civil (y m d : Z) : Z :=
  let y' := if m <=? 2 then y - 1 else y in
  let era := y' / 400 in
  let yoe := y' - era * 400 in
  let mp := if 2 <? m then m - 3 else m + 9 in
  let doy := (153 * mp + 2) / 5 + d - 1 in
  let doe := yoe * 365 + yoe / 4 - yoe / 100 + doy in
  era * 146097 + doe - 719468.

Definition is_leap (y : Z) : bool :=
  ((y mod 4 =? 0) && negb (y mod 100 =? 0)) || (y mod 400 =? 0).

Definition days_in_month (y m : Z) : Z :=
  if m =? 2 then (if is_leap y then 29 else 28)
  else if (m =? 4) || (m =? 6) || (m =? 9) || (m =? 11) then 30
  else 31.

Definition decimal_digit (c : ascii) : option Z :=
  match digit_value c with
  | Some d => if d <? 10 then Some d else None
  | None => None
  end.

Definition ms_per_day : Z := 86400000.

(** The date-only form [YYYY-MM-DD] of the ECMAScript date-time string
    format, which is read as midnight UTC.  Only a date that exists in the
    calendar is answered here. *)
Definition iso_date_only (s : string) : option Z :=
  match list_ascii_of_string s with
  | [y1; y2; y3; y4; "-"%char; m1; m2; "-"%char; d1; d2] =>
      match decimal_digit y1, decimal_digit y2, decimal_digit y3,
            decimal_digit y4, decimal_digit m1, decimal_digit m2,
            decimal_digit d1, decimal_digit d2 with
      | Some a, Some b, Some c, Some d, Some e, Some f, Some g, Some h =>
          let y := 1000 * a + 100 * b + 10 * c + d in
          let m := 10 * e + f in
          let dd := 10 * g + h in
          if (1 <=? m) && (m <=? 12) && (1 <=? dd) && (dd <=? days_in_month y m)
          then Some (days_from_civil y m dd * ms_per_day)
          else None
      | _, _, _, _, _, _, _, _ => None
      end
  | _ => None
  end.

(** TimeClip: a time value is at most 8.64e15 ms from the epoch. *)
Definition time_clip (t : Z) : option Z :=
  if Z.abs t <=? 8640000000000000 then Some t else None.

(** [a < b] on two [Date] objects, each given by its time value ([None]
    for an invalid date, whose time value is [NaN]). *)
Definition date_lt (a b : option Z) : bool :=
  match a, b with
  | Some x, Some y => x <? y
  | _, _ => false
  end.

(* ================================================================== *)
(** ** The page: network, storage, document and script variables *)
(* ================================================================== *)

(** A call of [fetch]: the path is relative to [API_BASE]; [body] is what
    the server decodes from the JSON text sent. *)
Record request := {
  method : string;
  endpoint : string;
  body : option value
}.

(** A response: its status and what [res.json()] completes with. *)
Record response := {
  status : Z;
  json : result value
}.

(** [res.ok] *)
Definition ok (res : response) : bool :=
  (200 <=? status res) && (status res <=? 299).

Inductive fetch_result : Type :=
| Rejected (err : exn)
| Resolved (res : response).

(** An entry of [localStorage], given by what [JSON.parse] makes of its
    text: it throws, or it yields a value. *)
Inductive item : Type :=
| Unparsable
| Parses (v : value).

(** A DOM element that can be focused: whether it has a [focus] method,
    and whether calling it moves the focus. *)
Record element := {
  el_id : string;
  el_focus : bool;
  el_tabbable : bool
}.

(** An event listener: a closure, told apart by its identity. *)
Record handler := {
  h_id : nat;
  h_onClose : string
}.

(** A [.modal] overlay with the three properties the helpers hang on it.
    [content] is its [.modal-content] with the visible focusable elements
    inside ([_getFocusable]); a missing property is [None], as is one set
    to [null]. *)
Record modal := {
  visible : bool;
  aria_hidden : option string;
  mousedown : list handler;
  content : option (element * list element);
  _overlayClick : option handler;
  _keyHandler : option handler;
  _previouslyFocused : option element
}.

Record button := {
  textContent : string;
  opacity : string;
  pointerEvents : string
}.

(** What [#matches-list] shows. *)
Inductive listing : Type :=
| EmptyState
| Cards (cards : list string).

Record match_form := {
  new_match_title : string;
  new_match_stadium : string;
  new_match_date : string;
  new_match_time : string;
  new_match_players : string;
  new_match_fee : string;
  new_match_friends : list string   (* values of the checked boxes *)
}.

Record login_form := {
  login_username : string;
  login_phone : string;
  login_age : string;
  login_position : string;
  login_skill : string
}.

Record page := {
  toasts : list (string * string);       (* notices shown, oldest first *)
  matches_list : option listing;
  home_matches : option (list string);
  match_detail : option string;
  join_match_btn : button;
  profile_header : option string;
  edit_profile : option string;
  modals : gmap string modal;            (* by element id *)
  keydown : list handler;                (* listeners on [document] *)
  activeElement : option element;
  create_match_form : match_form;
  login : login_form
}.

(** The script's variables (src/app.js:10-15 and 180-187), the browser
    state it reaches, and a log of what it sent and printed.  [matches]
    and [users] only ever receive arrays; [stadiums] receives whatever
    truthy payload arrives. *)
Record state := {
  stadiums : value;
  matches : list value;
  users : list value;
  currentUser : value;
  currentMatch : value;
  currentMatchTab : string;
  currentPage : string;
  pageHistory : list string;
  selectedAvatarDataUrl : value;
  loginAvatarDataUrl : value;
  localStorage : gmap string item;
  requests : list request;               (* calls of [fetch], oldest first *)
  console : list (string * exn);
  now : Z;                               (* the clock, [Date.now()] *)
  closures : nat;                        (* function objects created so far *)
  dom : page
}.

Definition with_dom (f : page -> page) (s : state) : state :=
  {| stadiums := stadiums s; matches := matches s; users := users s;
     currentUser := currentUser s; currentMatch := currentMatch s;
     currentMatchTab := currentMatchTab s; currentPage := currentPage s;
     pageHistory := pageHistory s;
     selectedAvatarDataUrl := selectedAvatarDataUrl s;
     loginAvatarDataUrl := loginAvatarDataUrl s;
     localStorage := localStorage s; requests := requests s;
     console := console s; now := now s; closures := closures s;
     dom := f (dom s) |}.

Definition set_stadiums (v : value) (s : state) : state :=
  {| stadiums := v; matches := matches s; users := users s;
     currentUser := currentUser s; currentMatch := currentMatch s;
     currentMatchTab := currentMatchTab s; currentPage := currentPage s;
     pageHistory := pageHistory s;
     selectedAvatarDataUrl := selectedAvatarDataUrl s;
     loginAvatarDataUrl := loginAvatarDataUrl s;
     localStorage := localStorage s; requests := requests s;
     console := console s; now := now s; closures := closures s;
     dom := dom s |}.

Definition set_matches (v : list value) (s : state) : state :=
  {| stadiums := stadiums s; matches := v; users := users s;
     currentUser := currentUser s; currentMatch := currentMatch s;
     currentMatchTab := currentMatchTab s; currentPage := currentPage s;
     pageHistory := pageHistory s;
     selectedAvatarDataUrl := selectedAvatarDataUrl s;
     loginAvatarDataUrl := loginAvatarDataUrl s;
     localStorage := localStorage s; requests := requests s;
     console := console s; now := now s; closures := closures s;
     dom := dom s |}.

Definition set_users (v : list value) (s : state) : state :=
  {| stadiums := stadiums s; matches := matches s; users := v;
     currentUser := currentUser s; currentMatch := currentMatch s;
     currentMatchTab := currentMatchTab s; currentPage := currentPage s;
     pageHistory := pageHistory s;
     selectedAvatarDataUrl := selectedAvatarDataUrl s;
     loginAvatarDataUrl := loginAvatarDataUrl s;
     localStorage := localStorage s; requests := requests s;
     console := console s; now := now s; closures := closures s;
     dom := dom s |}.

Definition set_currentUser (v : value) (s : state) : state :=
  {| stadiums := stadiums s; matches := matches s; users := users s;
     currentUser := v; currentMatch := currentMatch s;
     currentMatchTab := currentMatchTab s; currentPage := currentPage s;
     pageHistory := pageHistory s;
     selectedAvatarDataUrl := selectedAvatarDataUrl s;
     loginAvatarDataUrl := loginAvatarDataUrl s;
     localStorage := localStorage s; requests := requests s;
     console := console s; now := now s; closures := closures s;
     dom := dom s |}.

Definition set_currentMatch (v : value) (s : state) : state :=
  {| stadiums := stadiums s; matches := matches s; users := users s;
     currentUser := currentUser s; currentMatch := v;
     currentMatchTab := currentMatchTab s; currentPage := currentPage s;
     pageHistory := pageHistory s;
     selectedAvatarDataUrl := selectedAvatarDataUrl s;
     loginAvatarDataUrl := loginAvatarDataUrl s;
     localStorage := localStorage s; requests := requests s;
     console := console s; now := now s; closures := closures s;
     dom := dom s |}.

Definition set_currentMatchTab (tab : string) (s : state) : state :=
  {| stadiums := stadiums s; matches := matches s; users := users s;
     currentUser := currentUser s; currentMatch := currentMatch s;
     currentMatchTab := tab; currentPage := currentPage s;
     pageHistory := pageHistory s;
     selectedAvatarDataUrl := selectedAvatarDataUrl s;
     loginAvatarDataUrl := loginAvatarDataUrl s;
     localStorage := localStorage s; requests := requests s;
     console := console s; now := now s; closures := closures s;
     dom := dom s |}.

Definition set_navigation (p : string) (h : list string) (s : state) : state :=
  {| stadiums := stadiums s; matches := matches s; users := users s;
     currentUser := currentUser s; currentMatch := currentMatch s;
     currentMatchTab := currentMatchTab s; currentPage := p;
     pageHistory := h;
     selectedAvatarDataUrl := selectedAvatarDataUrl s;
     loginAvatarDataUrl := loginAvatarDataUrl s;
     localStorage := localStorage s; requests := requests s;
     console := console s; now := now s; closures := closures s;
     dom := dom s |}.

Definition set_localStorage (m : gmap string item) (s : state) : state :=
  {| stadiums := stadiums s; matches := matches s; users := users s;
     currentUser := currentUser s; currentMatch := currentMatch s;
     currentMatchTab := currentMatchTab s; currentPage := currentPage s;
     pageHistory := pageHistory s;
     selectedAvatarDataUrl := selectedAvatarDataUrl s;
     loginAvatarDataUrl := loginAvatarDataUrl s;
     localStorage := m; requests := requests s;
     console := console s; now := now s; closures := closures s;
     dom := dom s |}.

Definition set_requests (l : list request) (s : state) : state :=
  {| stadiums := stadiums s; matches := matches s; users := users s;
     currentUser := currentUser s; currentMatch := currentMatch s;
     currentMatchTab := currentMatchTab s; currentPage := currentPage s;
     pageHistory := pageHistory s;
     selectedAvatarDataUrl := selectedAvatarDataUrl s;
     loginAvatarDataUrl := loginAvatarDataUrl s;
     localStorage := localStorage s; requests := l;
     console := console s; now := now s; closures := closures s;
     dom := dom s |}.

Definition set_console (l : list (string * exn)) (s : state) : state :=
  {| stadiums := stadiums s; matches := matches s; users := users s;
     currentUser := currentUser s; currentMatch := currentMatch s;
     currentMatchTab := currentMatchTab s; currentPage := currentPage s;
     pageHistory := pageHistory s;
     selectedAvatarDataUrl := selectedAvatarDataUrl s;
     loginAvatarDataUrl := loginAvatarDataUrl s;
     localStorage := localStorage s; requests := requests s;
     console := l; now := now s; closures := closures s;
     dom := dom s |}.

Definition set_now (t : Z) (s : state) : state :=
  {| stadiums := stadiums s; matches := matches s; users := users s;
     currentUser := currentUser s; currentMatch := currentMatch s;
     currentMatchTab := currentMatchTab s; currentPage := currentPage s;
     pageHistory := pageHistory s;
     selectedAvatarDataUrl := selectedAvatarDataUrl s;
     loginAvatarDataUrl := loginAvatarDataUrl s;
     localStorage := localStorage s; requests := requests s;
     console := console s; now := t; closures := closures s;
     dom := dom s |}.

Definition set_closures (n : nat) (s : state) : state :=
  {| stadiums := stadiums s; matches := matches s; users := users s;
     currentUser := currentUser s; currentMatch := currentMatch s;
     currentMatchTab := currentMatchTab s; currentPage := currentPage s;
     pageHistory := pageHistory s;
     selectedAvatarDataUrl := selectedAvatarDataUrl s;
     loginAvatarDataUrl := loginAvatarDataUrl s;
     localStorage := localStorage s; requests := requests s;
     console := console s; now := now s; closures := n;
     dom := dom s |}.

Definition set_toasts (x : list (string * string)) (p : page) : page :=
  {| toasts := x; matches_list := matches_list p;
     home_matches := home_matches p; match_detail := match_detail p;
     join_match_btn := join_match_btn p;
     profile_header := profile_header p; edit_profile := edit_profile p;
     modals := modals p; keydown := keydown p;
     activeElement := activeElement p;
     create_match_form := create_match_form p; login := login p |}.

Definition set_matches_list (x : option listing) (p : page) : page :=
  {| toasts := toasts p; matches_list := x; home_matches := home_matches p;
     match_detail := match_detail p; join_match_btn := join_match_btn p;
     profile_header := profile_header p; edit_profile := edit_profile p;
     modals := modals p; keydown := keydown p;
     activeElement := activeElement p;
     create_match_form := create_match_form p; login := login p |}.

Definition set_home_matches (x : option (list string)) (p : page) : page :=
  {| toasts := toasts p; matches_list := matches_list p; home_matches := x;
     match_detail := match_detail p; join_match_btn := join_match_btn p;
     profile_header := profile_header p; edit_profile := edit_profile p;
     modals := modals p; keydown := keydown p;
     activeElement := activeElement p;
     create_match_form := create_match_form p; login := login p |}.

Definition set_match_detail (x : option string) (p : page) : page :=
  {| toasts := toasts p; matches_list := matches_list p;
     home_matches := home_matches p; match_detail := x;
     join_match_btn := join_match_btn p;
     profile_header := profile_header p; edit_profile := edit_profile p;
     modals := modals p; keydown := keydown p;
     activeElement := activeElement p;
     create_match_form := create_match_form p; login := login p |}.

Definition set_join_match_btn (x : button) (p : page) : page :=
  {| toasts := toasts p; matches_list := matches_list p;
     home_matches := home_matches p; match_detail := match_detail p;
     join_match_btn := x; profile_header := profile_header p;
     edit_profile := edit_profile p; modals := modals p;
     keydown := keydown p; activeElement := activeElement p;
     create_match_form := create_match_form p; login := login p |}.

Definition set_profile_header (x : option string) (p : page) : page :=
  {| toasts := toasts p; matches_list := matches_list p;
     home_matches := home_matches p; match_detail := match_detail p;
     join_match_btn := join_match_btn p; profile_header := x;
     edit_profile := edit_profile p; modals := modals p;
     keydown := keydown p; activeElement := activeElement p;
     create_match_form := create_match_form p; login := login p |}.

Definition set_edit_profile (x : option string) (p : page) : page :=
  {| toasts := toasts p; matches_list := matches_list p;
     home_matches := home_matches p; match_detail := match_detail p;
     join_match_btn := join_match_btn p;
     profile_header := profile_header p; edit_profile := x;
     modals := modals p; keydown := keydown p;
     activeElement := activeElement p;
     create_match_form := create_match_form p; login := login p |}.

Definition set_modals (x : gmap string modal) (p : page) : page :=
  {| toasts := toasts p; matches_list := matches_list p;
     home_matches := home_matches p; match_detail := match_detail p;
     join_match_btn := join_match_btn p;
     profile_header := profile_header p; edit_profile := edit_profile p;
     modals := x; keydown := keydown p; activeElement := activeElement p;
     create_match_form := create_match_form p; login := login p |}.

Definition set_keydown (x : list handler) (p : page) : page :=
  {| toasts := toasts p; matches_list := matches_list p;
     home_matches := home_matches p; match_detail := match_detail p;
     join_match_btn := join_match_btn p;
     profile_header := profile_header p; edit_profile := edit_profile p;
     modals := modals p; keydown := x; activeElement := activeElement p;
     create_match_form := create_match_form p; login := login p |}.

Definition set_activeElement (x : option element) (p : page) : page :=
  {| toasts := toasts p; matches_list := matches_list p;
     home_matches := home_matches p; match_detail := match_detail p;
     join_match_btn := join_match_btn p;
     profile_header := profile_header p; edit_profile := edit_profile p;
     modals := modals p; keydown := keydown p; activeElement := x;
     create_match_form := create_match_form p; login := login p |}.

Definition set_create_match_form (x : match_form) (p : page) : page :=
  {| toasts := toasts p; matches_list := matches_list p;
     home_matches := home_matches p; match_detail := match_detail p;
     join_match_btn := join_match_btn p;
     profile_header := profile_header p; edit_profile := edit_profile p;
     modals := modals p; keydown := keydown p;
     activeElement := activeElement p; create_match_form := x;
     login := login p |}.

Definition set_login (x : login_form) (p : page) : page :=
  {| toasts := toasts p; matches_list := matches_list p;
     home_matches := home_matches p; match_detail := match_detail p;
     join_match_btn := join_match_btn p;
     profile_header := profile_header p; edit_profile := edit_profile p;
     modals := modals p; keydown := keydown p;
     activeElement := activeElement p;
     create_match_form := create_match_form p; login := x |}.

(* ================================================================== *)
(** ** Running the script: state passing with exceptions *)
(* ================================================================== *)

(** A function of the script runs from a state to a returned value or a
    thrown exception, and in both cases leaves a state behind.  An
    [async] function is run to its end, each [await] in its turn; a
    rejected promise is a thrown exception. *)
Inductive outcome (A : Type) : Type :=
| Ret (a : A) (s : state)
| Throw (e : exn) (s : state).
Arguments Ret {A} a s.
Arguments Throw {A} e s.

Definition M (A : Type) : Type := state -> outcome A.

Definition ret {A} (a : A) : M A := fun s => Ret a s.

Definition bind {A B} (m : M A) (k : A -> M B) : M B :=
  fun s => match m s with
           | Ret a s' => k a s'
           | Throw e s' => Throw e s'
           end.

Definition throw {A} (e : exn) : M A := fun s => Throw e s.

Definition lift {A} (r : result A) : M A :=
  fun s => match r with Ok a => Ret a s | Raise e => Throw e s end.

(** [try { m } catch (err) { h err }] *)
Definition try_catch {A} (m : M A) (h : exn -> M A) : M A :=
  fun s => match m s with
           | Ret a s' => Ret a s'
           | Throw e s' => h e s'
           end.

Definition read {A} (f : state -> A) : M A := fun s => Ret (f s) s.

Definition write (f : state -> state) : M unit := fun s => Ret tt (f s).

Notation "'let!' x := m 'in' k" := (bind m (fun x => k))
  (at level 10, x name, m at level 100, k at level 200).
Notation "m >> k" := (bind m (fun _ => k))
  (at level 90, right associativity).

Definition final_state {A} (o : outcome A) : state :=
  match o with Ret _ s | Throw _ s => s end.

(* ================================================================== *)
(** ** The surroundings of the script *)
(* ================================================================== *)

(** What the script calls but does not define, and the markup templates
    whose text no property below depends on.  [fetch] answers a request
    given the requests sent before it.  [Date_parse_fallback] stands for
    the implementation-defined part of [Date.parse].  The four templates
    build the markup of a match card (src/app.js:367-413, given
    [stadiums]), of the match detail above the join button (656-712,
    given the stadium), of the profile header (1278-1316) and of the
    profile form (559-593, given [selectedAvatarDataUrl]); each may
    throw on a record it cannot read. *)
Record environment := {
  fetch : list request -> request -> fetch_result;
  Date_parse_fallback : string -> option Z;
  renderMatchCard : value -> value -> result string;
  renderMatchDetail : value -> value -> result string;
  renderProfileHeader : value -> result string;
  renderProfileForm : value -> value -> result string
}.

Definition dquote : string := String (ascii_of_nat 34) EmptyString.

Section App.

Variable E : environment.

(** *** Dates *)

Definition Date_parse (s : string) : option Z :=
  match iso_date_only s with
  | Some t => Some t
  | None => Date_parse_fallback E s
  end.

(** The time value of [new Date(v)]; [None] is an invalid date. *)
Definition new_Date (v : value) : option Z :=
  match v with
  | VUndefined | VNaN => None
  | VNull => Some 0
  | VBool b => Some (if b then 1 else 0)
  | VNum n => time_clip n
  | VStr s => Date_parse s
  | VArr _ | VObj _ => Date_parse (to_string v)
  end.

(** *** Notices (src/app.js:974-980) *)

Definition showToast (icon message : string) : M unit :=
  write (with_dom (fun p => set_toasts (toasts p ++ [(icon, message)]) p)).

(** *** Local session store (src/app.js:19-41) *)

Definition storage_key : string := "justplay_currentUser".

Definition getSavedUser : M value :=
  read (fun s => match localStorage s !! storage_key with
                 | Some (Parses v) => v
                 | Some Unparsable => VNull
                 | None => VNull
                 end).

Definition saveCurrentUser (user : value) : M unit :=
  if truthy user
  then write (fun s => set_localStorage
                         (<[storage_key := Parses (json_copy user)]> (localStorage s)) s)
  else write (fun s => set_localStorage (delete storage_key (localStorage s)) s).

Definition clearCurrentUser : M unit :=
  write (fun s => set_localStorage (delete storage_key (localStorage s)) s).

(** *** API gateway adapter (src/app.js:60-93) *)

Definition call_fetch (req : request) : M response :=
  fun s =>
    let s' := set_requests (requests s ++ [req]) s in
    match fetch E (requests s) req with
    | Rejected err => Throw err s'
    | Resolved res => Ret res s'
    end.

Definition console_error (label : string) (err : exn) : M unit :=
  write (fun s => set_console (console s ++ [(label, err)]) s).

Definition api_error (res : response) : string :=
  "API error: " +:+ string_of_Z (status res).

Definition apiGet (endpoint : string) : M value :=
  try_catch
    (let! res := call_fetch {| method := "GET"; endpoint := endpoint;
                               body := None |} in
     if negb (ok res) then throw (Error (api_error res))
     else lift (json res))
    (fun err =>
       console_error ("GET " +:+ endpoint +:+ " failed:") err >>
       ret VNull).

(** The inner [try] of [apiPost]:
    [errData.error || errData.message || errText]. *)
Definition error_text (res : response) : M value :=
  try_catch
    (let! errData := lift (json res) in
     let! e := lift (get errData "error") in
     if truthy e then ret e
     else let! m := lift (get errData "message") in
          ret (js_or m (VStr (api_error res))))
    (fun _ => ret (VStr (api_error res))).

Definition apiPost (endpoint : string) (data : value) : M value :=
  try_catch
    (let! res := call_fetch {| method := "POST"; endpoint := endpoint;
                               body := Some (json_copy data) |} in
     if negb (ok res)
     then let! errText := error_text res in
          throw (Error (to_string errText))
     else lift (json res))
    (fun err =>
       console_error ("POST " +:+ endpoint +:+ " failed:") err >>
       ret (VObj [("error", VStr (message err))])).

(** *** Domain cache (src/app.js:130-176) *)

Definition loadStadiums : M value :=
  let! data := apiGet "/stadiums" in
  (if truthy data then write (set_stadiums data) else ret tt) >>
  read stadiums.

(** The record [loadMatches] builds from each element [m]:
    [{...m, id: m._id, _stadium: m.stadiumId,
      stadiumId: m.stadiumId?._id || m.stadiumId}]. *)
Definition normalizeMatch (m : value) : result value :=
  let? mid := get m "_id" in
  let? sid := get m "stadiumId" in
  Ok (VObj (set_field "stadiumId" (js_or (get_opt sid "_id") sid)
              (set_field "_stadium" sid
                 (set_field "id" mid (spread m))))).

(** [data.map(cb)] on a truthy payload. *)
Definition payload_map (data : value) (cb : value -> result value)
  : result (list value) :=
  match data with
  | VArr xs => Array_map cb xs
  | _ => Raise (not_a_function "data.map")
  end.

Definition loadMatches : M (list value) :=
  let! data := apiGet "/matches" in
  (if truthy data
   then let! normalized := lift (payload_map data normalizeMatch) in
        write (set_matches normalized)
   else ret tt) >>
  read matches.

Definition Array_isArray (v : value) : bool :=
  match v with VArr _ => true | _ => false end.

Definition elements (v : value) : list value :=
  match v with VArr xs => xs | _ => [] end.

(** The restore step of [loadUsers], on the array just stored in
    [users]. *)
Definition restoreUser (loaded : list value) : M unit :=
  let! savedUser := getSavedUser in
  if truthy savedUser
  then let! sid := lift (get savedUser "_id") in
       if truthy sid
       then let! found := lift (Array_find
                                  (fun u => let? uid := get u "_id" in
                                            Ok (strict_eq uid sid))
                                  loaded) in
            write (set_currentUser (js_or found VNull))
       else write (set_currentUser VNull)
  else write (set_currentUser VNull).

Definition loadUsers : M (list value) :=
  let! data := apiGet "/users" in
  (if truthy data && Array_isArray data
   then write (set_users (elements data)) >>
        restoreUser (elements data)
   else ret tt) >>
  read users.

(** The callback of both lookups: [r => r._id === id || r.id === id]. *)
Definition has_id (id : value) (r : value) : result bool :=
  let? primary := get r "_id" in
  if strict_eq primary id then Ok true
  else let? alternate := get r "id" in
       Ok (strict_eq alternate id).

(** [coll.find(cb)] on a variable that may hold any payload. *)
Definition payload_find (coll : value) (cb : value -> result bool)
  : result value :=
  match coll with
  | VArr xs => Array_find cb xs
  | VUndefined | VNull => Raise (cannot_read coll "find")
  | _ => Raise (not_a_function "stadiums.find")
  end.

Definition getStadiumById (id : value) : M value :=
  let! coll := read stadiums in
  lift (payload_find coll (has_id id)).

Definition getMatchById (id : value) : M value :=
  let! coll := read matches in
  lift (Array_find (has_id id) coll).

(** *** Navigation (src/app.js:191-228); the class toggles follow
    [currentPage], the timers it starts are left out *)

Definition navigateTo (target : string) (pushHistory : bool) : M unit :=
  write (fun s =>
           let h := if pushHistory && negb (String.eqb (currentPage s) target)
                    then (pageHistory s ++ [currentPage s])%list
                    else pageHistory s in
           set_navigation target h s).

(** *** Match lists (src/app.js:361-365 and 415-439) *)

Definition render_cards (ms : list value) : M (list string) :=
  let! ss := read stadiums in
  lift (Array_map (renderMatchCard E ss) ms).

Definition renderHomeMatches : M unit :=
  let! ms := read matches in
  let! upcoming := lift (Array_filter
                           (fun m => let? st := get m "status" in
                                     Ok (negb (strict_eq st (VStr "past"))))
                           ms) in
  let! cards := render_cards (firstn 3 upcoming) in
  write (with_dom (set_home_matches (Some cards))).

(** [m.players.includes(user.name)], in the order JavaScript evaluates it:
    the receiver [m.players], the method on it, the argument, the call. *)
Definition players_include (m user : value) : result bool :=
  let? players := get m "players" in
  if nullish players then Raise (cannot_read players "includes")
  else let? name := get user "name" in
       includes players name.

Definition is_open (m : value) : result bool :=
  let? st := get m "status" in
  Ok (strict_eq st (VStr "open")).

(** The date every match of the past tab is compared with. *)
Definition past_threshold : option Z := new_Date (VStr "2026-02-14").

Definition is_past (m : value) : result bool :=
  let? d := get m "date" in
  Ok (date_lt (new_Date d) past_threshold).

(** The filter of the selected tab. *)
Definition tab_filter (tab : string) (user : value) (ms : list value)
  : result (list value) :=
  if String.eqb tab "open" then Array_filter is_open ms
  else if String.eqb tab "my" then
    Array_filter (fun m => players_include m user) ms
  else if String.eqb tab "past" then Array_filter is_past ms
  else Ok ms.

Definition renderMatchesList : M unit :=
  let! ms := read matches in
  let! tab := read currentMatchTab in
  let! user := read currentUser in
  let! filtered := lift (tab_filter tab user ms) in
  match filtered with
  | [] => write (with_dom (set_matches_list (Some EmptyState)))
  | _ :: _ =>
      let! cards := render_cards filtered in
      write (with_dom (set_matches_list (Some (Cards cards))))
  end.

(** [setMatchTab] (src/app.js:769-775) *)
Definition setMatchTab (tab : string) : M unit :=
  write (set_currentMatchTab tab) >>
  renderMatchesList.

(** *** Match detail (src/app.js:652-739) *)

Definition already_joined : button :=
  {| textContent := "✅ Already Joined"; opacity := "0.6";
     pointerEvents := "none" |}.

Definition match_is_full : button :=
  {| textContent := "🚫 Match is Full"; opacity := "0.6";
     pointerEvents := "none" |}.

Definition join_this_match : button :=
  {| textContent := "⚡ Join This Match"; opacity := "1";
     pointerEvents := "auto" |}.

(** The join button state (src/app.js:714-729). *)
Definition joinButton (m user : value) : result button :=
  let? isJoined := players_include m user in
  if isJoined then Ok already_joined
  else let? st := get m "status" in
       if strict_eq st (VStr "full") then Ok match_is_full
       else Ok join_this_match.

Definition openMatchDetail (id : value) : M unit :=
  let! m := getMatchById id in
  write (set_currentMatch m) >>
  if negb (truthy m) then ret tt
  else
    let! sid := lift (get m "stadiumId") in
    let! found := getStadiumById sid in
    let! stadium := (if truthy found then ret found
                     else lift (get m "_stadium")) in
    let! markup := lift (renderMatchDetail E stadium m) in
    write (with_dom (set_match_detail (Some markup))) >>
    let! user := read currentUser in
    let! btn := lift (joinButton m user) in
    write (with_dom (set_join_match_btn btn)) >>
    navigateTo "match-detail" true.

(** *** Joining from a card (src/app.js:755-765) *)

Definition joinMatchById (id : value) : M unit :=
  let! user := read currentUser in
  let! name := lift (get user "name") in
  let! result := apiPost ("/matches/" +:+ to_string id +:+ "/join")
                         (VObj [("playerName", name)]) in
  if truthy result
  then let! title := lift (get result "title") in
       showToast "🎉" ("You joined " +:+ dquote +:+ to_string title
                       +:+ dquote +:+ "!") >>
       loadMatches >>
       renderMatchesList >>
       renderHomeMatches
  else showToast "⚠️" "Could not join match.".

(** *** Modal accessibility helpers (src/app.js:998-1053) *)

(** [document.getElementById(id)] for a modal overlay, and the first use
    of the element, which throws when there is none. *)
Definition the_modal (id : string) (property : string) : M modal :=
  let! found := read (fun s => modals (dom s) !! id) in
  match found with
  | Some m => ret m
  | None => throw (cannot_read VNull property)
  end.

Definition update_modal (id : string) (f : modal -> modal) : M unit :=
  write (with_dom (fun p => set_modals (alter f id (modals p)) p)).

(** [el.focus()] *)
Definition focus (el : element) : M unit :=
  if el_tabbable el then write (with_dom (set_activeElement (Some el)))
  else ret tt.

(** [removeEventListener] with the listener [h]. *)
Definition without (h : handler) (l : list handler) : list handler :=
  List.filter (fun h' => negb (Nat.eqb (h_id h') (h_id h))) l.

Definition set_aria_hidden (x : option string) (m : modal) : modal :=
  {| visible := visible m; aria_hidden := x; mousedown := mousedown m;
     content := content m; _overlayClick := _overlayClick m;
     _keyHandler := _keyHandler m;
     _previouslyFocused := _previouslyFocused m |}.

Definition set_mousedown (x : list handler) (m : modal) : modal :=
  {| visible := visible m; aria_hidden := aria_hidden m; mousedown := x;
     content := content m; _overlayClick := _overlayClick m;
     _keyHandler := _keyHandler m;
     _previouslyFocused := _previouslyFocused m |}.

(** The three properties [_overlayClick], [_keyHandler] and
    [_previouslyFocused] of the modal. *)
Definition set_overlayClick (x : option handler) (m : modal) : modal :=
  {| visible := visible m; aria_hidden := aria_hidden m;
     mousedown := mousedown m; content := content m; _overlayClick := x;
     _keyHandler := _keyHandler m;
     _previouslyFocused := _previouslyFocused m |}.

Definition set_keyHandler (x : option handler) (m : modal) : modal :=
  {| visible := visible m; aria_hidden := aria_hidden m;
     mousedown := mousedown m; content := content m;
     _overlayClick := _overlayClick m; _keyHandler := x;
     _previouslyFocused := _previouslyFocused m |}.

Definition set_previouslyFocused (x : option element) (m : modal) : modal :=
  {| visible := visible m; aria_hidden := aria_hidden m;
     mousedown := mousedown m; content := content m;
     _overlayClick := _overlayClick m; _keyHandler := _keyHandler m;
     _previouslyFocused := x |}.

(** A new closure: its identity is the count of those made before. *)
Definition new_handler (onClose : string) : M handler :=
  let! n := read closures in
  write (set_closures (S n)) >>
  ret {| h_id := n; h_onClose := onClose |}.

Definition _addModalHandlers (id : string) (onClose : string) : M unit :=
  let! m := the_modal id "querySelector" in
  let! previous := read (fun s => activeElement (dom s)) in
  update_modal id (set_previouslyFocused previous) >>
  let! overlayClick := new_handler onClose in
  update_modal id (set_overlayClick (Some overlayClick)) >>
  update_modal id (fun m => set_mousedown (mousedown m ++ [overlayClick]) m) >>
  let! keyHandler := new_handler onClose in
  update_modal id (set_keyHandler (Some keyHandler)) >>
  write (with_dom (fun p => set_keydown (keydown p ++ [keyHandler]) p)) >>
  update_modal id (set_aria_hidden (Some "false")) >>
  match content m with
  | None => throw (cannot_read VNull "querySelectorAll")
  | Some (dialog, focusable) => focus (hd dialog focusable)
  end.

Definition _removeModalHandlers (id : string) : M unit :=
  let! m := the_modal id "querySelector" in
  (match _overlayClick m with
   | Some h => update_modal id (fun m => set_mousedown (without h (mousedown m)) m)
   | None => ret tt
   end) >>
  (match _keyHandler m with
   | Some h => write (with_dom (fun p => set_keydown (without h (keydown p)) p))
   | None => ret tt
   end) >>
  update_modal id (set_aria_hidden (Some "true")) >>
  (match _previouslyFocused m with
   | Some el => if el_focus el then focus el else ret tt
   | None => ret tt
   end) >>
  update_modal id (set_overlayClick None) >>
  update_modal id (set_keyHandler None) >>
  update_modal id (set_previouslyFocused None).

Definition set_visible (b : bool) (m : modal) : modal :=
  {| visible := b; aria_hidden := aria_hidden m; mousedown := mousedown m;
     content := content m; _overlayClick := _overlayClick m;
     _keyHandler := _keyHandler m;
     _previouslyFocused := _previouslyFocused m |}.

(** [openAddStadiumModal] and [closeAddStadiumModal] (src/app.js:915-925),
    [closeCreateMatchModal] (808-812). *)
Definition openAddStadiumModal : M unit :=
  the_modal "add-stadium-modal" "classList" >>
  update_modal "add-stadium-modal" (set_visible true) >>
  _addModalHandlers "add-stadium-modal" "closeAddStadiumModal".

Definition closeAddStadiumModal : M unit :=
  the_modal "add-stadium-modal" "classList" >>
  update_modal "add-stadium-modal" (set_visible false) >>
  _removeModalHandlers "add-stadium-modal".

Definition closeCreateMatchModal : M unit :=
  the_modal "create-match-modal" "classList" >>
  update_modal "create-match-modal" (set_visible false) >>
  _removeModalHandlers "create-match-modal".

(** *** Profile views (src/app.js:1278-1316 and 559-593) *)

Definition updateProfileHeader : M unit :=
  let! user := read currentUser in
  let! markup := lift (renderProfileHeader E user) in
  write (with_dom (set_profile_header (Some markup))).

Definition renderEditProfile : M unit :=
  let! user := read currentUser in
  if negb (truthy user) then ret tt
  else
    let! pending := read selectedAvatarDataUrl in
    let! markup := lift (renderProfileForm E user pending) in
    write (with_dom (set_edit_profile (Some markup))).

(** *** Creating a match (src/app.js:814-860) *)

(** [`${n / 2}`] *)
Definition half_text (n : value) : string :=
  match n with
  | VNum k =>
      (if k <? 0 then "-" else "") +:+ string_of_Z (Z.abs k / 2) +:+
      (if Z.odd k then ".5" else "")
  | _ => "NaN"
  end.

Definition clear_match_form (f : match_form) : match_form :=
  {| new_match_title := ""; new_match_stadium := new_match_stadium f;
     new_match_date := new_match_date f; new_match_time := new_match_time f;
     new_match_players := new_match_players f; new_match_fee := "";
     new_match_friends := new_match_friends f |}.

Definition createMatch : M unit :=
  let! form := read (fun s => create_match_form (dom s)) in
  let title := trim (new_match_title form) in
  let stadiumId := new_match_stadium form in
  let date := new_match_date form in
  let time := new_match_time form in
  let maxPlayers := parseInt (new_match_players form) in
  let fee := js_or (parseInt (new_match_fee form)) (VNum 0) in
  let selectedFriends := new_match_friends form in
  if String.eqb title "" then showToast "⚠️" "Please enter a match title!"
  else if String.eqb stadiumId "" then showToast "⚠️" "Please select a stadium!"
  else if String.eqb date "" || String.eqb time ""
  then showToast "⚠️" "Please select date and time!"
  else if js_gt (VNum (Z.of_nat (length selectedFriends) + 1)) maxPlayers
  then showToast "⚠️" ("Too many players! Max is " +:+ to_string maxPlayers
                       +:+ ".")
  else
    let! user := read currentUser in
    let! name := lift (get user "name") in
    let matchData :=
      VObj [("title", VStr title);
            ("stadiumId", VStr stadiumId);
            ("date", VStr date);
            ("time", VStr time);
            ("maxPlayers", maxPlayers);
            ("players", VArr (name :: List.map VStr selectedFriends));
            ("status", VStr "open");
            ("rules", VArr [VStr (half_text maxPlayers +:+ " vs " +:+
                                  half_text maxPlayers +:+ " format");
                            VStr "30-minute halves";
                            VStr "Fair play rules apply";
                            VStr "Have fun!"]);
            ("fee", fee)] in
    let! result := apiPost "/matches" matchData in
    if truthy result
    then closeCreateMatchModal >>
         showToast "🎉" ("Match " +:+ dquote +:+ title +:+ dquote
                         +:+ " created!") >>
         loadMatches >>
         renderMatchesList >>
         renderHomeMatches >>
         write (with_dom (fun p =>
                  set_create_match_form
                    (clear_match_form (create_match_form p)) p))
    else showToast "❌" "Failed to create match. Try again.".

(** *** Logging in (src/app.js:862-911) *)

Definition has_phone (phone : string) (u : value) : result bool :=
  let? p := get u "phone" in
  Ok (strict_eq p (VStr phone)).

(** The registration branch; [true] when the function goes on to the
    home page, [false] when it returns early. *)
Definition register (name phone age position skillLevel : string) : M bool :=
  let! avatar := read loginAvatarDataUrl in
  let payload :=
    VObj [("name", VStr name);
          ("phone", VStr phone);
          ("age", parseInt age);
          ("position", VStr position);
          ("skillLevel", VStr skillLevel);
          ("avatar", avatar);
          ("stats", VObj [("matchesPlayed", VNum 0); ("goals", VNum 0);
                          ("rating", VNum 5)]);
          ("matchHistory", VArr [])] in
  let! res := apiPost "/users" payload in
  let! accepted := (if truthy res
                    then let! e := lift (get res "error") in
                         ret (negb (truthy e))
                    else ret false) in
  if accepted
  then write (set_currentUser res) >>
       saveCurrentUser res >>
       showToast "🎉" "Account created successfully!" >>
       loadUsers >>
       ret true
  else let! e := lift (get res "error") in
       showToast "❌" (to_string (js_or e (VStr "Registration failed"))) >>
       ret false.

Definition submitLogin : M unit :=
  let! form := read (fun s => login (dom s)) in
  let name := trim (login_username form) in
  let phone := trim (login_phone form) in
  let age := login_age form in
  let position := login_position form in
  let skillLevel := login_skill form in
  if String.eqb name "" || String.eqb phone "" || String.eqb age ""
     || String.eqb position "" || String.eqb skillLevel ""
  then showToast "⚠️" "Please fill in all fields!"
  else
    let! loaded := read users in
    let! existingUser := lift (Array_find (has_phone phone) loaded) in
    let! proceed :=
      (if truthy existingUser
       then write (set_currentUser existingUser) >>
            saveCurrentUser existingUser >>
            let! n := lift (get existingUser "name") in
            showToast "✅" ("Welcome back, " +:+ to_string n +:+ "!") >>
            ret true
       else register name phone age position skillLevel) in
    if proceed
    then navigateTo "home" true >>
         updateProfileHeader >>
         renderEditProfile
    else ret tt.

End App.

(* ================================================================== *)
(** ** The rest of the adapter, navigation and modal listeners *)
(* ================================================================== *)

Section Script.

Variable E : environment.

(** *** [apiPut] and [apiDelete] (src/app.js:95-126) *)

Definition apiPut (endpoint : string) (data : value) : M value :=
  try_catch
    (let! res := call_fetch E {| method := "PUT"; endpoint := endpoint;
                                 body := Some (json_copy data) |} in
     if negb (ok res)
     then let! errText := error_text res in
          throw (Error (to_string errText))
     else lift (json res))
    (fun err =>
       console_error ("PUT " +:+ endpoint +:+ " failed:") err >>
       ret (VObj [("error", VStr (message err))])).

Definition apiDelete (endpoint : string) : M value :=
  try_catch
    (let! res := call_fetch E {| method := "DELETE"; endpoint := endpoint;
                                 body := None |} in
     if negb (ok res) then throw (Error (api_error res))
     else lift (json res))
    (fun err =>
       console_error ("DELETE " +:+ endpoint +:+ " failed:") err >>
       ret VNull).

(** *** [goBack] and [showSection] (src/app.js:230-242) *)

(** [pageHistory.pop()] on a history that is not empty. *)
Definition pop_history : M string :=
  let! h := read pageHistory in
  write (fun s => set_navigation (currentPage s) (removelast h) s) >>
  ret (List.last h "").

Definition goBack : M unit :=
  let! h := read pageHistory in
  match h with
  | _ :: _ => let! prev := pop_history in navigateTo prev false
  | [] => navigateTo "home" false
  end.

Definition showSection (section : string) : M unit :=
  write (fun s => set_navigation (currentPage s)
                    (pageHistory s ++ [currentPage s])%list s) >>
  navigateTo section true.

(** *** Joining from the detail page (src/app.js:741-753) *)

Definition joinMatch : M unit :=
  let! shown := read currentMatch in
  if negb (truthy shown) then ret tt
  else
    let! primary := lift (get shown "_id") in
    let! matchId := (if truthy primary then ret primary
                     else lift (get shown "id")) in
    let! user := read currentUser in
    let! name := lift (get user "name") in
    let! result := apiPost E ("/matches/" +:+ to_string matchId +:+ "/join")
                           (VObj [("playerName", name)]) in
    if truthy result
    then let! shown' := read currentMatch in
         let! title := lift (get shown' "title") in
         showToast "🎉" ("You joined " +:+ dquote +:+ to_string title
                         +:+ dquote +:+ "!") >>
         loadMatches E >>
         openMatchDetail E matchId
    else showToast "⚠️"
           "Could not join match. You may already be in it or it's full.".

(** *** The two listeners of an open modal (src/app.js:1003-1032) *)

(** Two elements are the same element when they have the same [el_id]. *)
Definition same_element (a : option element) (b : element) : bool :=
  match a with
  | Some x => String.eqb (el_id x) (el_id b)
  | None => false
  end.

(** [modal._overlayClick], for the modal with the id [id] and a
    [mousedown] whose target has the id [target]. *)
Definition overlayClick (id : string) (onClose : M unit) (target : string)
  : M unit :=
  if String.eqb target id then onClose else ret tt.

(** [modal._keyHandler], with the [content] it closes over; the result
    tells whether [preventDefault] was called. *)
Definition keyHandler (content : option (element * list element))
           (onClose : M unit) (key : string) (shiftKey : bool) : M bool :=
  if String.eqb key "Escape" then onClose >> ret true
  else if String.eqb key "Tab" then
    match content with
    | None => throw (cannot_read VNull "querySelectorAll")
    | Some (_, []) => ret false
    | Some (_, first :: rest) =>
        let last := List.last rest first in
        let! active := read (fun s => activeElement (dom s)) in
        if shiftKey
        then if same_element active first
             then focus last >> ret true
             else ret false
        else if same_element active last
             then focus first >> ret true
             else ret false
    end
  else ret false.

End Script.

(* ================================================================== *)
(** ** Vocabulary of the statements *)
(* ================================================================== *)

(** A record: the own properties of a decoded JSON object. *)
Abbreviation record := (list (string * value)).

Definition records (rs : list record) : list value := List.map VObj rs.

(** What [getSavedUser] returns in state [s]. *)
Definition snapshot (s : state) : value :=
  match localStorage s !! storage_key with
  | Some (Parses v) => v
  | _ => VNull
  end.

(** The identifier of the saved snapshot, as the guard
    [savedUser && savedUser._id] of [loadUsers] sees it. *)
Definition saved_id (s : state) : option value :=
  if truthy (snapshot s)
  then let x := get_opt (snapshot s) "_id" in
       if truthy x then Some x else None
  else None.

(** [r] carries [id] in its primary or in its alternate identifier. *)
Definition carries (id : value) (r : record) : Prop :=
  strict_eq (lookup_field "_id" r) id = true \/
  strict_eq (lookup_field "id" r) id = true.

Definition carriesb (id : value) (r : record) : bool :=
  strict_eq (lookup_field "_id" r) id || strict_eq (lookup_field "id" r) id.

(** The record [loadMatches] stores for the received record [r]. *)
Definition normalized (r : record) : value :=
  let sid := lookup_field "stadiumId" r in
  VObj (set_field "stadiumId" (js_or (get_opt sid "_id") sid)
          (set_field "_stadium" sid
             (set_field "id" (lookup_field "_id" r) r))).

(** The user [loadUsers] restores from the snapshot of [s] among the
    loaded records [rs]. *)
Definition restored (s : state) (rs : list record) : value :=
  match saved_id s with
  | Some X =>
      match List.find (fun r => strict_eq (lookup_field "_id" r) X) rs with
      | Some r => VObj r
      | None => VNull
      end
  | None => VNull
  end.

(** [x] is an element of the array [ps], as [includes] compares. *)
Definition is_member (x : value) (ps : list value) : Prop :=
  Exists (fun p => same_value_zero x p = true) ps.

(** The outcome [o], had the clock shown [t]. *)
Definition at_time {A} (t : Z) (o : outcome A) : outcome A :=
  match o with
  | Ret a s => Ret a (set_now t s)
  | Throw e s => Throw e (set_now t s)
  end.

(** The code points of WhiteSpace and LineTerminator (ECMA-262, 12.2 and
    12.3): TAB, LF, VT, FF, CR, SP, NBSP, the other space separators of
    Unicode, LS, PS and ZWNBSP. *)
Definition white_space : list Z :=
  [9; 10; 11; 12; 13; 32; 160; 5760;
   8192; 8193; 8194; 8195; 8196; 8197; 8198; 8199; 8200; 8201; 8202;
   8232; 8233; 8239; 8287; 12288; 65279].

(** The literal [2026-02-14], midnight UTC, in ms since the epoch. *)
Definition february_14_2026 : Z := 1771027200000.

(** The records of [ms] dated strictly before the time [limit], in the
    order of [ms]; a record whose date is not a valid date is not among
    them. *)
Definition dated_before (E : environment) (limit : Z) (ms : list record)
  : list record :=
  List.filter (fun m => date_lt (new_Date E (lookup_field "date" m))
                                (Some limit)) ms.

(** What the list container holds once the matches [shown] are listed
    with the cards [cards]: the empty state when there is none. *)
Definition listed (shown : list record) (cards : list string) : listing :=
  match shown with
  | [] => EmptyState
  | _ :: _ => Cards cards
  end.

(** The page [s] once one more notice is shown. *)
Definition with_notice (icon message : string) (s : state) : state :=
  with_dom (fun p => set_toasts (toasts p ++ [(icon, message)]) p) s.

(** The phone number a login submission is looked up with. *)
Definition submitted_phone (s : state) : string :=
  trim (login_phone (login (dom s))).

(** No field of the login form is blank, as [submitLogin] checks it. *)
Definition login_filled (s : state) : Prop :=
  trim (login_username (login (dom s))) <> "" /\
  submitted_phone s <> "" /\
  login_age (login (dom s)) <> "" /\
  login_position (login (dom s)) <> "" /\
  login_skill (login (dom s)) <> "".

Definition phone_is (phone : string) (r : record) : bool :=
  strict_eq (lookup_field "phone" r) (VStr phone).

(** The adapter call behind the answer [a] fails: the request is
    rejected, the status is not a success, or the body does not decode. *)
Definition call_fails (a : fetch_result) : Prop :=
  match a with
  | Rejected _ => True
  | Resolved res => ok res = false \/ exists e, json res = Raise e
  end.

(** The request [joinMatchById id] sends for the player [name]. *)
Definition join_request (id name : value) : request :=
  {| method := "POST";
     endpoint := "/matches/" +:+ to_string id +:+ "/join";
     body := Some (json_copy (VObj [("playerName", name)])) |}.

Definition success_notice (title : string) : string * string :=
  ("🎉", "You joined " +:+ dquote +:+ title +:+ dquote +:+ "!").

Definition failure_notice : string * string :=
  ("⚠️", "Could not join match.").

(** [s'] is [s] but for the requests sent and the lines printed. *)
Definition only_logged (s s' : state) : Prop :=
  s' = set_console (console s') (set_requests (requests s') s).

(** *** The adapter, call by call *)

(** The text of the error a refused [POST] or [PUT] reports: the
    [error] of the decoded body, else its [message], else the status. *)
Definition server_message (res : response) : string :=
  match json res with
  | Ok (VObj fs) =>
      if truthy (lookup_field "error" fs)
      then to_string (lookup_field "error" fs)
      else if truthy (lookup_field "message" fs)
           then to_string (lookup_field "message" fs)
           else api_error res
  | _ => api_error res
  end.

(** What goes wrong with the answer [a], if anything: the rejection of
    the request, a status that is not a success (reported with the text
    [refusal] makes of the response), or a body that does not decode. *)
Definition caught (refusal : response -> string) (a : fetch_result)
  : option exn :=
  match a with
  | Rejected err => Some err
  | Resolved res =>
      if ok res
      then match json res with
           | Ok _ => None
           | Raise e => Some e
           end
      else Some (Error (refusal res))
  end.

(** The decoded body of an answer. *)
Definition decoded (a : fetch_result) : value :=
  match a with
  | Resolved {| json := Ok v |} => v
  | _ => VUndefined
  end.

(** The state once the request [req] is sent and, if the call failed
    with [e], the failure is printed under [label]. *)
Definition after_call (req : request) (label : string) (e : option exn)
           (s : state) : state :=
  let sent := set_requests (requests s ++ [req]) s in
  match e with
  | Some err => set_console (console s ++ [(label, err)]) sent
  | None => sent
  end.

Definition get_request (ep : string) : request :=
  {| method := "GET"; endpoint := ep; body := None |}.

Definition delete_request (ep : string) : request :=
  {| method := "DELETE"; endpoint := ep; body := None |}.

Definition post_request (ep : string) (data : value) : request :=
  {| method := "POST"; endpoint := ep; body := Some (json_copy data) |}.

Definition put_request (ep : string) (data : value) : request :=
  {| method := "PUT"; endpoint := ep; body := Some (json_copy data) |}.

(** *** The session store and the history *)

(** A value [JSON.stringify] writes in full: it holds no [undefined] and
    no [NaN]. *)
Fixpoint is_json (v : value) : bool :=
  match v with
  | VUndefined | VNaN => false
  | VArr xs => forallb is_json xs
  | VObj fs => forallb (fun kv => match kv with (_, x) => is_json x end) fs
  | _ => true
  end.

(** The state [s] with the entry [x] of the session store under
    [storage_key] ([None]: no entry). *)
Definition with_session (x : option item) (s : state) : state :=
  set_localStorage
    (match x with
     | Some i => <[storage_key := i]> (localStorage s)
     | None => delete storage_key (localStorage s)
     end) s.

(** A walk through the pages [ps], each reached with [navigateTo]. *)
Fixpoint visit (ps : list string) : M unit :=
  match ps with
  | [] => ret tt
  | p :: rest => navigateTo p true >> visit rest
  end.

(** [goBack], [n] times. *)
Fixpoint back (n : nat) : M unit :=
  match n with
  | O => ret tt
  | S k => goBack >> back k
  end.

(** Every step of the walk [ps] from the page [from] leads to another
    page than the one it leaves. *)
Fixpoint moves (from : string) (ps : list string) : Prop :=
  match ps with
  | [] => True
  | p :: rest => p <> from /\ moves p rest
  end.

(** *** Modals *)

(** The modal [m] once closed: hidden, with no handler left on it. *)
Definition closed (m : modal) : modal :=
  {| visible := false; aria_hidden := Some "true"; mousedown := mousedown m;
     content := content m; _overlayClick := None; _keyHandler := None;
     _previouslyFocused := None |}.

(** Every listener of [l] is one of the first [n] closures made. *)
Definition made_before (n : nat) (l : list handler) : Prop :=
  Forall (fun h => (h_id h < n)%nat) l.

(** The page [s] once the modal [id], which was [m], has been opened and
    closed again: the modal is closed, two closures have been made, and
    nothing else differs. *)
Definition reopened (id : string) (m : modal) (s : state) : state :=
  set_closures (S (S (closures s)))
    (with_dom (set_modals (<[id := closed m]> (modals (dom s)))) s).

(** *** Creating a match and registering *)






(** *** The match lists *)

(** The matches of [ms] the home page shows: the first three whose
    status is not [past]. *)
Definition upcoming (ms : list record) : list record :=
  firstn 3 (List.filter
              (fun m => negb (strict_eq (lookup_field "status" m)
                                        (VStr "past")))
              ms).

(** The record [m] lists the player [name]. *)
Definition has_player (name : value) (m : record) : bool :=
  match lookup_field "players" m with
  | VArr ps => existsb (same_value_zero name) ps
  | _ => false
  end.

(** [renderMatchesList] lists the matches [shown] on the page [s]: their
    cards when the template renders them, the empty state when there is
    none. *)
Definition lists (E : environment) (s : state) (shown : list record) : Prop :=
  forall cards,
    Array_map (renderMatchCard E (stadiums s)) (records shown) = Ok cards ->
    renderMatchesList E s =
    Ret tt (with_dom (set_matches_list (Some (listed shown cards))) s).

(** The identifier [joinMatch] sends for the match [m] on show. *)
Definition shown_id (m : record) : value :=
  js_or (lookup_field "_id" m) (lookup_field "id" m).

(** *** A page to run the examples on *)

Definition blank_button : button :=
  {| textContent := ""; opacity := ""; pointerEvents := "" |}.

Definition blank_page : page :=
  {| toasts := []; matches_list := None; home_matches := None;
     match_detail := None; join_match_btn := blank_button;
     profile_header := None; edit_profile := None; modals := ∅;
     keydown := []; activeElement := None;
     create_match_form :=
       {| new_match_title := ""; new_match_stadium := "";
          new_match_date := ""; new_match_time := "";
          new_match_players := ""; new_match_fee := "";
          new_match_friends := [] |};
     login :=
       {| login_username := ""; login_phone := ""; login_age := "";
          login_position := ""; login_skill := "" |} |}.

(** The state the script starts in (src/app.js:10-15, 180-187). *)
Definition initial : state :=
  {| stadiums := VArr []; matches := []; users := []; currentUser := VNull;
     currentMatch := VNull; currentMatchTab := "all"; currentPage := "home";
     pageHistory := []; selectedAvatarDataUrl := VNull;
     loginAvatarDataUrl := VNull; localStorage := ∅; requests := [];
     console := []; now := 0; closures := 0; dom := blank_page |}.

(** Surroundings with a given server and the plainest templates. *)
Definition surroundings (server : list request -> request -> fetch_result)
  : environment :=
  {| fetch := server;
     Date_parse_fallback := fun _ => None;
     renderMatchCard := fun _ m => Ok (to_string (get_opt m "title"));
     renderMatchDetail := fun _ m => Ok (to_string (get_opt m "title"));
     renderProfileHeader := fun u => Ok (to_string (get_opt u "name"));
     renderProfileForm := fun u _ => Ok (to_string (get_opt u "name")) |}.

Definition answer (code : Z) (payload : value) : fetch_result :=
  Resolved {| status := code; json := Ok payload |}.

Definition offline : environment :=
  surroundings (fun _ _ => Rejected (TypeError "Failed to fetch")).

Definition ali : record :=
  [("_id", VStr "u1"); ("name", VStr "Ali R."); ("phone", VStr "0555")].

Definition omar : record :=
  [("_id", VStr "u2"); ("name", VStr "Omar B."); ("phone", VStr "0666")].

Definition friendly : record :=
  [("_id", VStr "m1"); ("title", VStr "Friday five");
   ("stadiumId", VStr "s1"); ("date", VStr "2026-02-10");
   ("maxPlayers", VNum 10); ("players", VArr [VStr "Ali R."]);
   ("status", VStr "open")].

Definition arena : record :=
  [("_id", VStr "s1"); ("name", VStr "Arena")].

(** A server that lists one stadium, one match and two users, and
    refuses every join with status 400. *)
Definition small_server (_ : list request) (req : request) : fetch_result :=
  if String.eqb (method req) "GET" then
    if String.eqb (endpoint req) "/stadiums" then answer 200 (VArr [VObj arena])
    else if String.eqb (endpoint req) "/matches" then answer 200 (VArr [VObj friendly])
    else if String.eqb (endpoint req) "/users" then answer 200 (VArr [VObj ali; VObj omar])
    else answer 404 VNull
  else answer 400 (VObj [("error", VStr "Match is full")]).

Definition online : environment := surroundings small_server.

(** The page once the three collections are loaded from [small_server],
    for a guest and with Ali signed in. *)
Definition guest : state :=
  {| stadiums := VArr [VObj arena]; matches := [normalized friendly];
     users := records [ali; omar]; currentUser := VNull;
     currentMatch := VNull; currentMatchTab := "all"; currentPage := "home";
     pageHistory := []; selectedAvatarDataUrl := VNull;
     loginAvatarDataUrl := VNull; localStorage := ∅; requests := [];
     console := []; now := 0; closures := 0; dom := blank_page |}.

Definition signed_in : state := set_currentUser (VObj ali) guest.

(** The record [loadMatches] keeps for [friendly]. *)
Definition stored_friendly : record :=
  Eval cbv in match normalized friendly with VObj fs => fs | _ => [] end.

(** A second match, full, that Ali is not in; and the page with both
    matches loaded. *)
Definition derby : record :=
  [("_id", VStr "m2"); ("title", VStr "Derby"); ("stadiumId", VStr "s1");
   ("date", VStr "2026-02-20"); ("maxPlayers", VNum 2);
   ("players", VArr [VStr "Omar B."; VStr "Karim D."]);
   ("status", VStr "full"); ("id", VStr "m2"); ("_stadium", VStr "s1")].

Definition two_matches : state :=
  set_matches (records [stored_friendly; derby]) signed_in.

(** The loaded page with Omar signed in. *)
Definition omar_signed_in : state := set_currentUser (VObj omar) guest.

(** A stadium that came with the alternate identifier only. *)
Definition legacy_pitch : record :=
  [("id", VStr "s7"); ("name", VStr "Old pitch")].

(** The loaded page with a stadium of each origin. *)
Definition two_origins : state :=
  set_stadiums (VArr (records [legacy_pitch; arena])) guest.

(** A reload of the page: Omar is still in [currentUser], the stored
    snapshot is Ali's, and no collection is loaded yet. *)
Definition returning : state :=
  set_localStorage {[ storage_key := Parses (VObj ali) ]}
    (set_currentUser (VObj omar) initial).

(** The same reload with the snapshot of a user the server has dropped. *)
Definition dropped : state :=
  set_localStorage
    {[ storage_key := Parses (VObj [("_id", VStr "u9"); ("name", VStr "Ziad V.")]) ]}
    (set_currentUser (VObj omar) initial).

(** A create-match form with room for four and four friends ticked. *)
Definition crowded_form : state :=
  with_dom (set_create_match_form
              {| new_match_title := "Friday five";
                 new_match_stadium := "s1";
                 new_match_date := "2026-03-01";
                 new_match_time := "18:00";
                 new_match_players := "4";
                 new_match_fee := "";
                 new_match_friends := ["Ahmed K."; "Youssef A."; "Omar B.";
                                       "Khalid M."] |}) signed_in.

(** A page with the add-stadium modal, never opened, focus on a button. *)
Definition add_button : element :=
  {| el_id := "add-stadium-btn"; el_focus := true; el_tabbable := true |}.

Definition stadium_dialog : element :=
  {| el_id := "add-stadium-content"; el_focus := true; el_tabbable := false |}.

Definition name_input : element :=
  {| el_id := "new-stadium-name"; el_focus := true; el_tabbable := true |}.

Definition fresh_modal : modal :=
  {| visible := false; aria_hidden := Some "true"; mousedown := [];
     content := Some (stadium_dialog, [name_input]);
     _overlayClick := None; _keyHandler := None;
     _previouslyFocused := None |}.

Definition owner_page : state :=
  with_dom (fun p => set_activeElement (Some add_button)
                       (set_modals {[ "add-stadium-modal" := fresh_modal ]} p))
           guest.

(** The crowded form with room for five, on a page that has the
    create-match modal. *)
Definition roomy_form : state :=
  with_dom (fun p =>
              set_modals {[ "create-match-modal" := fresh_modal ]}
                (set_create_match_form
                   {| new_match_title := "Friday five";
                      new_match_stadium := "s1";
                      new_match_date := "2026-03-01";
                      new_match_time := "18:00";
                      new_match_players := "5";
                      new_match_fee := "";
                      new_match_friends := ["Ahmed K."; "Youssef A.";
                                            "Omar B."; "Khalid M."] |} p))
           signed_in.

(** The page after the modal is closed again: two closures were made. *)
Definition owner_page_closed : state := set_closures 2 owner_page.

(** The same page once [openAddStadiumModal] has run. *)
Definition modal_open : state := final_state (openAddStadiumModal owner_page).

(** A guest submits the login form with Ali's phone number and no name. *)
Definition nameless_login : state :=
  with_dom (set_login {| login_username := ""; login_phone := "0555";
                         login_age := "24"; login_position := "Midfielder";
                         login_skill := "Intermediate" |}) guest.

(** The same form with the name filled in. *)
Definition complete_login : state :=
  with_dom (set_login {| login_username := "Ali R."; login_phone := " 0555 ";
                         login_age := "24"; login_position := "Midfielder";
                         login_skill := "Intermediate" |}) guest.

(** The form with Ali's phone number and a no-break space for a name. *)
Definition spaced_login : state :=
  with_dom (set_login {| login_username := unit_text 160;
                         login_phone := "0555";
                         login_age := "24"; login_position := "Midfielder";
                         login_skill := "Intermediate" |}) guest.

(** A complete form with a phone number no loaded user has. *)
Definition newcomer_login : state :=
  with_dom (set_login {| login_username := "Ziad V."; login_phone := "0777";
                         login_age := "30"; login_position := "Defender";
                         login_skill := "Beginner" |}) guest.

(** The detail page of the Friday match, Ali signed in. *)
Definition match_on_show : state :=
  set_currentMatch (VObj stored_friendly) signed_in.

(** A page just reloaded after Ali's login on [complete_login]. *)
Definition after_login_reload : state :=
  set_localStorage {[ storage_key := Parses (VObj ali) ]} initial.

(** The page with both matches loaded, on the open tab. *)
Definition open_tab : state := set_currentMatchTab "open" two_matches.

(* ================================================================== *)
(** ** Properties *)
(* ================================================================== *)

Ltac run :=
  unfold bind, ret, throw, lift, try_catch, read, write, rbind in *.

Lemma only_logged_refl (s : state) : only_logged s s.
Proof. unfold only_logged. destruct s. reflexivity. Qed.

Lemma only_logged_trans (s1 s2 s3 : state) :
  only_logged s1 s2 -> only_logged s2 s3 -> only_logged s1 s3.
Proof.
  unfold only_logged. intros H12 H23. rewrite H23. rewrite H12.
  destruct s1. reflexivity.
Qed.

Lemma only_logged_requests (s : state) (l : list request) :
  only_logged s (set_requests l s).
Proof. unfold only_logged. destruct s. reflexivity. Qed.

Lemma only_logged_console (s : state) (l : list (string * exn)) :
  only_logged s (set_console l s).
Proof. unfold only_logged. destruct s. reflexivity. Qed.

(** What a logging step leaves alone. *)
Lemma only_logged_frame (s s' : state) :
  only_logged s s' ->
  stadiums s' = stadiums s /\ matches s' = matches s /\ users s' = users s /\
  currentUser s' = currentUser s /\ localStorage s' = localStorage s /\
  dom s' = dom s /\ currentMatchTab s' = currentMatchTab s /\
  currentMatch s' = currentMatch s.
Proof. unfold only_logged. intros ->. repeat split. Qed.

(** *** Arrays of records *)

Lemma Array_find_records (cb : value -> result bool) (p : record -> bool)
      (rs : list record) :
  (forall r, cb (VObj r) = Ok (p r)) ->
  Array_find cb (records rs) =
  Ok (match List.find p rs with Some r => VObj r | None => VUndefined end).
Proof.
  intros Hcb. induction rs as [| r rs IH]; simpl; [reflexivity |].
  rewrite Hcb. simpl. destruct (p r); [reflexivity | exact IH].
Qed.

Lemma Array_map_records (cb : value -> result value) (f : record -> value)
      (rs : list record) :
  (forall r, cb (VObj r) = Ok (f r)) ->
  Array_map cb (records rs) = Ok (List.map f rs).
Proof.
  intros Hcb. induction rs as [| r rs IH]; simpl; [reflexivity |].
  rewrite Hcb. simpl. fold (records rs). rewrite IH. reflexivity.
Qed.

Lemma find_first {A} (p : A -> bool) (pre : list A) (x : A) (post : list A) :
  Forall (fun y => p y = false) pre -> p x = true ->
  List.find p (pre ++ x :: post) = Some x.
Proof.
  intros Hpre Hx. induction Hpre as [| y pre Hy _ IH]; simpl.
  - rewrite Hx. reflexivity.
  - rewrite Hy. exact IH.
Qed.

Lemma find_none {A} (p : A -> bool) (l : list A) :
  (forall x, In x l -> p x = false) -> List.find p l = None.
Proof.
  induction l as [| y l IH]; intros H; simpl; [reflexivity |].
  rewrite (H y (or_introl eq_refl)). apply IH.
  intros x Hx. apply H. right. exact Hx.
Qed.

Lemma find_unique {A} (p : A -> bool) (l : list A) (x : A) :
  In x l -> p x = true ->
  (forall y, In y l -> p y = true -> y = x) ->
  List.find p l = Some x.
Proof.
  induction l as [| y l IH]; intros Hin Hx Huniq; [destruct Hin |].
  simpl. destruct (p y) eqn:Hy.
  - f_equal. apply Huniq; [left; reflexivity | exact Hy].
  - destruct Hin as [-> | Hin]; [congruence |].
    apply IH; [exact Hin | exact Hx |].
    intros z Hz. apply Huniq. right. exact Hz.
Qed.

(** A truthy value can be read: [v.k] does not throw. *)
Lemma get_truthy (v : value) (k : string) :
  truthy v = true -> get v k = Ok (get_opt v k).
Proof. destruct v; simpl; intros H; try discriminate; reflexivity. Qed.

Lemma has_id_record (id : value) (r : record) :
  has_id id (VObj r) = Ok (carriesb id r).
Proof.
  unfold has_id, carriesb. simpl.
  destruct (strict_eq (lookup_field "_id" r) id); reflexivity.
Qed.

Lemma carriesb_true (id : value) (r : record) :
  carriesb id r = true <-> carries id r.
Proof. unfold carriesb, carries. apply orb_true_iff. Qed.

Lemma carriesb_false (id : value) (r : record) :
  carriesb id r = false <-> ~ carries id r.
Proof.
  rewrite <- carriesb_true. destruct (carriesb id r); split; intros H;
    try reflexivity; try discriminate; try (intros Hc; discriminate).
  exfalso. apply H. reflexivity.
Qed.

Lemma normalizeMatch_record (r : record) :
  normalizeMatch (VObj r) = Ok (normalized r).
Proof. reflexivity. Qed.

Lemma lookup_set_field_eq (k : string) (v : value) (fs : record) :
  lookup_field k (set_field k v fs) = v.
Proof.
  induction fs as [| [k' v'] fs IH]; simpl.
  - rewrite String.eqb_refl. reflexivity.
  - destruct (String.eqb k k') eqn:Hk; simpl.
    + rewrite String.eqb_refl. reflexivity.
    + rewrite Hk. exact IH.
Qed.

Lemma lookup_set_field_ne (k k' : string) (v : value) (fs : record) :
  k <> k' -> lookup_field k (set_field k' v fs) = lookup_field k fs.
Proof.
  intros Hne. induction fs as [| [k0 v0] fs IH]; simpl.
  - apply String.eqb_neq in Hne. rewrite Hne. reflexivity.
  - destruct (String.eqb k' k0) eqn:Hk; simpl.
    + apply String.eqb_eq in Hk. subst k0.
      apply String.eqb_neq in Hne. rewrite Hne. reflexivity.
    + destruct (String.eqb k k0); [reflexivity | exact IH].
Qed.

(** What normalizing does to a received match: the alternate identifier
    is the primary one, [_stadium] is the stadium reference as received,
    [stadiumId] is the identifier of a populated stadium or the bare
    reference, and every other property is as received. *)
Lemma normalized_fields (r : record) :
  get (normalized r) "id" = Ok (lookup_field "_id" r) /\
  get (normalized r) "_id" = Ok (lookup_field "_id" r) /\
  get (normalized r) "_stadium" = Ok (lookup_field "stadiumId" r) /\
  get (normalized r) "stadiumId" =
    Ok (js_or (get_opt (lookup_field "stadiumId" r) "_id")
              (lookup_field "stadiumId" r)) /\
  (forall k, k <> "id" -> k <> "_stadium" -> k <> "stadiumId" ->
             get (normalized r) k = Ok (lookup_field k r)).
Proof.
  unfold normalized. cbn [get]. repeat split.
  - rewrite !lookup_set_field_ne by discriminate.
    rewrite lookup_set_field_eq. reflexivity.
  - rewrite !lookup_set_field_ne by discriminate. reflexivity.
  - rewrite lookup_set_field_ne by discriminate.
    rewrite lookup_set_field_eq. reflexivity.
  - rewrite lookup_set_field_eq. reflexivity.
  - intros k H1 H2 H3. rewrite !lookup_set_field_ne by assumption.
    reflexivity.
Qed.

Section Properties.

Variable E : environment.

(** The adapter never throws: [apiGet] returns a value and changes
    nothing but the request log and the console. *)
Lemma apiGet_returns (ep : string) (s : state) :
  exists v s', apiGet E ep s = Ret v s' /\ only_logged s s' /\
               requests s' = (requests s ++
                 [{| method := "GET"; endpoint := ep; body := None |}])%list.
Proof.
  unfold apiGet, call_fetch, console_error. run.
  destruct (fetch E (requests s) _) as [err | res].
  - eexists _, _. split; [reflexivity |]. split; [| reflexivity].
    eapply only_logged_trans;
      [apply only_logged_requests | apply only_logged_console].
  - destruct (ok res); simpl.
    + destruct (json res) as [v | e].
      * eexists _, _. split; [reflexivity |]. split; [| reflexivity].
        apply only_logged_requests.
      * eexists _, _. split; [reflexivity |]. split; [| reflexivity].
        eapply only_logged_trans;
          [apply only_logged_requests | apply only_logged_console].
    + eexists _, _. split; [reflexivity |]. split; [| reflexivity].
      eapply only_logged_trans;
        [apply only_logged_requests | apply only_logged_console].
Qed.

(** *** Lookup by identifier *)

Lemma find_carrier_first (id : value) (pre : list record) (r : record)
      (post : list record) :
  Forall (fun r' => ~ carries id r') pre -> carries id r ->
  List.find (carriesb id) (pre ++ r :: post) = Some r.
Proof.
  intros Hpre Hr. apply find_first.
  - eapply Forall_impl; [exact Hpre |]. intros r'. apply carriesb_false.
  - apply carriesb_true. exact Hr.
Qed.

Lemma find_carrier_none (id : value) (rs : list record) :
  (forall r, In r rs -> ~ carries id r) ->
  List.find (carriesb id) rs = None.
Proof.
  intros H. apply find_none. intros r Hr. apply carriesb_false. auto.
Qed.

(** C2. On a collection of records, [getStadiumById id] and
    [getMatchById id] return the first record that carries [id] in its
    primary field [_id] or in its alternate field [id], whichever of the
    two it is, and [undefined] when no record carries it in either. *)
Theorem lookup_by_either_identifier (s : state) (id : value)
        (rs : list record) :
  (stadiums s = VArr (records rs) ->
   (forall pre r post,
       rs = (pre ++ r :: post)%list ->
       Forall (fun r' => ~ carries id r') pre ->
       carries id r ->
       getStadiumById id s = Ret (VObj r) s) /\
   ((forall r, In r rs -> ~ carries id r) ->
    getStadiumById id s = Ret VUndefined s)) /\
  (matches s = records rs ->
   (forall pre r post,
       rs = (pre ++ r :: post)%list ->
       Forall (fun r' => ~ carries id r') pre ->
       carries id r ->
       getMatchById id s = Ret (VObj r) s) /\
   ((forall r, In r rs -> ~ carries id r) ->
    getMatchById id s = Ret VUndefined s)).
Proof.
  split; intros Hcoll; split.
  - intros pre r post -> Hpre Hr.
    unfold getStadiumById. run. rewrite Hcoll. simpl.
    rewrite (Array_find_records _ (carriesb id)) by apply has_id_record.
    rewrite find_carrier_first by assumption. reflexivity.
  - intros Hnone.
    unfold getStadiumById. run. rewrite Hcoll. simpl.
    rewrite (Array_find_records _ (carriesb id)) by apply has_id_record.
    rewrite find_carrier_none by assumption. reflexivity.
  - intros pre r post -> Hpre Hr.
    unfold getMatchById. run. rewrite Hcoll.
    rewrite (Array_find_records _ (carriesb id)) by apply has_id_record.
    rewrite find_carrier_first by assumption. reflexivity.
  - intros Hnone.
    unfold getMatchById. run. rewrite Hcoll.
    rewrite (Array_find_records _ (carriesb id)) by apply has_id_record.
    rewrite find_carrier_none by assumption. reflexivity.
Qed.

(** *** Loading the collections *)

Lemma apiGet_frame (ep : string) (s s1 : state) (v : value) :
  apiGet E ep s = Ret v s1 -> only_logged s s1.
Proof.
  intros H. destruct (apiGet_returns ep s) as (v' & s' & Heq & Hlog & _).
  rewrite H in Heq. injection Heq as _ <-. exact Hlog.
Qed.

Lemma getSavedUser_snapshot (s : state) :
  getSavedUser s = Ret (snapshot s) s.
Proof.
  unfold getSavedUser, snapshot, read.
  destruct (localStorage s !! storage_key) as [[| v] |]; reflexivity.
Qed.

(** The restore step on loaded records: it returns, and sets the current
    user to the first record with the saved identifier, or to [null]. *)
Lemma restoreUser_records (rs : list record) (s : state) :
  restoreUser (records rs) s = Ret tt (set_currentUser (restored s rs) s).
Proof.
  unfold restoreUser, bind. rewrite getSavedUser_snapshot.
  unfold restored, saved_id.
  destruct (truthy (snapshot s)) eqn:Hsnap; [| reflexivity].
  unfold lift. rewrite (get_truthy _ _ Hsnap).
  destruct (truthy (get_opt (snapshot s) "_id")) eqn:Hid; [| reflexivity].
  rewrite (Array_find_records _
             (fun r => strict_eq (lookup_field "_id" r)
                                 (get_opt (snapshot s) "_id")))
    by reflexivity.
  match goal with |- context [List.find ?p rs] => destruct (List.find p rs) end;
    reflexivity.
Qed.

(** On any loaded array the restore step leaves [users] alone, whether
    it returns or throws. *)
Lemma restoreUser_users (xs : list value) (s : state) :
  users (final_state (restoreUser xs s)) = users s.
Proof.
  unfold restoreUser, bind. rewrite getSavedUser_snapshot.
  destruct (truthy (snapshot s)); [| reflexivity].
  unfold lift. destruct (get (snapshot s) "_id") as [sid | e]; [| reflexivity].
  destruct (truthy sid); [| reflexivity].
  destruct (Array_find _ xs); reflexivity.
Qed.

(** C3. When the adapter returns [null], [loadStadiums], [loadMatches]
    and [loadUsers] return the collection they had and leave it (and the
    current user) as it was; when it returns an array they replace the
    collection with it, [loadMatches] with its records normalized. *)
Theorem loaders_keep_or_replace (s : state) :
  (forall s1, apiGet E "/stadiums" s = Ret VNull s1 ->
     loadStadiums E s = Ret (stadiums s) s1 /\ stadiums s1 = stadiums s) /\
  (forall s1, apiGet E "/matches" s = Ret VNull s1 ->
     loadMatches E s = Ret (matches s) s1 /\ matches s1 = matches s) /\
  (forall s1, apiGet E "/users" s = Ret VNull s1 ->
     loadUsers E s = Ret (users s) s1 /\ users s1 = users s /\
     currentUser s1 = currentUser s) /\
  (forall xs s1, apiGet E "/stadiums" s = Ret (VArr xs) s1 ->
     loadStadiums E s = Ret (VArr xs) (set_stadiums (VArr xs) s1)) /\
  (forall rs s1, apiGet E "/matches" s = Ret (VArr (records rs)) s1 ->
     loadMatches E s = Ret (List.map normalized rs)
                           (set_matches (List.map normalized rs) s1)) /\
  (forall xs s1, apiGet E "/users" s = Ret (VArr xs) s1 ->
     users (final_state (loadUsers E s)) = xs) /\
  (forall rs s1, apiGet E "/users" s = Ret (VArr (records rs)) s1 ->
     exists s2, loadUsers E s = Ret (records rs) s2 /\
                users s2 = records rs).
Proof.
  split; [intros s1 H | split; [intros s1 H | split; [intros s1 H |
  split; [intros xs s1 H | split; [intros rs s1 H |
  split; [intros xs s1 H | intros rs s1 H]]]]]];
    pose proof (only_logged_frame _ _ (apiGet_frame _ _ _ _ H))
      as (Hst & Hm & Hu & Hcu & _).
  - split; [| exact Hst].
    unfold loadStadiums. run. rewrite H. simpl. rewrite Hst. reflexivity.
  - split; [| exact Hm].
    unfold loadMatches. run. rewrite H. simpl. rewrite Hm. reflexivity.
  - split; [| split; [exact Hu | exact Hcu]].
    unfold loadUsers. run. rewrite H. simpl. rewrite Hu. reflexivity.
  - unfold loadStadiums. run. rewrite H. reflexivity.
  - unfold loadMatches. run. rewrite H. simpl.
    rewrite (Array_map_records _ normalized) by apply normalizeMatch_record.
    reflexivity.
  - unfold loadUsers, bind. rewrite H. simpl.
    pose proof (restoreUser_users xs (set_users xs s1)) as Hx.
    destruct (restoreUser xs (set_users xs s1)); exact Hx.
  - unfold loadUsers, bind. rewrite H. simpl.
    rewrite restoreUser_records. eexists. split; reflexivity.
Qed.

(** Payloads that are neither [null] nor an array.  A falsy payload
    counts as a failure; a truthy one is stored by [loadStadiums] as it
    is, makes [loadMatches] throw with the matches kept, and is ignored
    by [loadUsers]. *)
Lemma loaders_on_other_payloads (s : state) (data : value) (s1 : state) :
  Array_isArray data = false ->
  (apiGet E "/stadiums" s = Ret data s1 ->
   stadiums (final_state (loadStadiums E s)) =
   if truthy data then data else stadiums s) /\
  (apiGet E "/matches" s = Ret data s1 ->
   matches (final_state (loadMatches E s)) = matches s /\
   (truthy data = true ->
    loadMatches E s = Throw (not_a_function "data.map") s1)) /\
  (apiGet E "/users" s = Ret data s1 ->
   loadUsers E s = Ret (users s) s1 /\ users s1 = users s /\
   currentUser s1 = currentUser s).
Proof.
  intros Hshape. split; [| split]; intros H;
    pose proof (only_logged_frame _ _ (apiGet_frame _ _ _ _ H))
      as (Hst & Hm & Hu & Hcu & _).
  - unfold loadStadiums. run. rewrite H.
    destruct (truthy data); simpl; [reflexivity | exact Hst].
  - assert (Hmap : payload_map data normalizeMatch =
                   Raise (not_a_function "data.map"))
      by (destruct data; try reflexivity; discriminate Hshape).
    unfold loadMatches. run. rewrite H.
    destruct (truthy data); simpl.
    + rewrite Hmap. split; [exact Hm | reflexivity].
    + split; [exact Hm | discriminate].
  - unfold loadUsers. run. rewrite H. rewrite Hshape, andb_false_r. simpl.
    rewrite Hu. repeat split; assumption.
Qed.

(** *** Restoring the session *)

Lemma saved_id_storage (a b : state) :
  localStorage a = localStorage b -> saved_id a = saved_id b.
Proof. unfold saved_id, snapshot. intros ->. reflexivity. Qed.

Lemma restored_storage (a b : state) (rs : list record) :
  localStorage a = localStorage b -> restored a rs = restored b rs.
Proof. unfold restored. intros H. rewrite (saved_id_storage _ _ H). reflexivity. Qed.

(** [loadUsers] on a loaded list of records: the current user becomes
    what the snapshot of the state before the call restores. *)
Lemma loadUsers_records (s : state) (rs : list record) (s1 : state) :
  apiGet E "/users" s = Ret (VArr (records rs)) s1 ->
  loadUsers E s =
  Ret (records rs)
      (set_currentUser (restored s rs) (set_users (records rs) s1)).
Proof.
  intros H.
  pose proof (only_logged_frame _ _ (apiGet_frame _ _ _ _ H))
    as (_ & _ & _ & _ & Hls & _).
  unfold loadUsers, bind. rewrite H. simpl.
  rewrite restoreUser_records.
  rewrite (restored_storage (set_users (records rs) s1) s) by exact Hls.
  reflexivity.
Qed.

(** C1. After [loadUsers] has loaded a list of user records, the current
    user is the one record of the list whose [_id] equals the identifier
    [X] of the saved snapshot; it is [null] when no record of the list has
    that identifier and when there is no snapshot with an identifier,
    whatever the current user was before. *)
Theorem loadUsers_rehydrates (s : state) (rs : list record) (s1 : state) :
  apiGet E "/users" s = Ret (VArr (records rs)) s1 ->
  exists s2,
    loadUsers E s = Ret (records rs) s2 /\
    users s2 = records rs /\
    (forall X, saved_id s = Some X ->
       (forall r,
           In r rs ->
           strict_eq (lookup_field "_id" r) X = true ->
           (forall r', In r' rs ->
                       strict_eq (lookup_field "_id" r') X = true -> r' = r) ->
           currentUser s2 = VObj r) /\
       ((forall r, In r rs -> strict_eq (lookup_field "_id" r) X = false) ->
        currentUser s2 = VNull)) /\
    (saved_id s = None -> currentUser s2 = VNull).
Proof.
  intros H. eexists. split; [apply (loadUsers_records _ _ _ H) |].
  split; [reflexivity |]. cbn [currentUser set_currentUser].
  unfold restored. split.
  - intros X ->. split.
    + intros r Hin Hr Huniq.
      rewrite (find_unique _ rs r Hin Hr Huniq). reflexivity.
    + intros Hnone. rewrite (find_none _ rs Hnone). reflexivity.
  - intros ->. reflexivity.
Qed.

(** *** The match detail and its join button *)

Lemma getMatchById_records (s : state) (ms : list record) (id : value) :
  matches s = records ms ->
  getMatchById id s =
  Ret (match List.find (carriesb id) ms with
       | Some r => VObj r
       | None => VUndefined
       end) s.
Proof.
  intros H. unfold getMatchById. run. rewrite H.
  rewrite (Array_find_records _ (carriesb id)) by apply has_id_record.
  reflexivity.
Qed.

Lemma getStadiumById_records (s : state) (ss : list record) (id : value) :
  stadiums s = VArr (records ss) ->
  getStadiumById id s =
  Ret (match List.find (carriesb id) ss with
       | Some r => VObj r
       | None => VUndefined
       end) s.
Proof.
  intros H. unfold getStadiumById. run. rewrite H. simpl.
  rewrite (Array_find_records _ (carriesb id)) by apply has_id_record.
  reflexivity.
Qed.

Lemma existsb_member (x : value) (ps : list value) :
  existsb (same_value_zero x) ps = true <-> is_member x ps.
Proof.
  unfold is_member. rewrite existsb_exists, Exists_exists.
  split; intros (p & Hin & Hp); exists p; split; auto;
    apply list_elem_of_In; exact Hin.
Qed.

(** For a name that is a string, membership is plain membership. *)
Lemma is_member_string (name : string) (ps : list value) :
  is_member (VStr name) ps <-> In (VStr name) ps.
Proof.
  unfold is_member. rewrite Exists_exists. split.
  - intros (p & Hin & Hp). apply list_elem_of_In in Hin.
    destruct p; simpl in Hp; try discriminate.
    apply String.eqb_eq in Hp. subst. exact Hin.
  - intros Hin. exists (VStr name). split.
    + apply list_elem_of_In. exact Hin.
    + simpl. apply String.eqb_refl.
Qed.

(** The three states of the button, for a signed-in user and a match
    with a players array. *)
Lemma joinButton_states (m u : record) (ps : list value) :
  lookup_field "players" m = VArr ps ->
  joinButton (VObj m) (VObj u) =
  Ok (if existsb (same_value_zero (lookup_field "name" u)) ps
      then already_joined
      else if strict_eq (lookup_field "status" m) (VStr "full")
           then match_is_full
           else join_this_match).
Proof.
  intros Hps. unfold joinButton, players_include. simpl. rewrite Hps. simpl.
  destruct (existsb _ ps); [reflexivity |].
  destruct (strict_eq _ _); reflexivity.
Qed.

Lemma strict_eq_string (v : value) (t : string) :
  strict_eq v (VStr t) = true <-> v = VStr t.
Proof.
  destruct v; simpl; split; intros H; try discriminate; try reflexivity.
  - apply String.eqb_eq in H. congruence.
  - injection H as ->. apply String.eqb_refl.
Qed.

(** [openMatchDetail] on a match that is found, with the stadiums loaded
    and a template that renders it: it returns, with the button that
    [joinButton] computes, unless [joinButton] throws. *)
Lemma openMatchDetail_found (s : state) (id : value) (ss : list record)
      (m : record) :
  getMatchById id s = Ret (VObj m) s ->
  stadiums s = VArr (records ss) ->
  (forall stadium, exists markup,
      renderMatchDetail E stadium (VObj m) = Ok markup) ->
  exists markup,
    openMatchDetail E id s =
    match joinButton (VObj m) (currentUser s) with
    | Ok btn =>
        navigateTo "match-detail" true
          (with_dom (set_join_match_btn btn)
             (with_dom (set_match_detail (Some markup))
                (set_currentMatch (VObj m) s)))
    | Raise e =>
        Throw e (with_dom (set_match_detail (Some markup))
                   (set_currentMatch (VObj m) s))
    end.
Proof.
  intros Hm Hss Htpl.
  unfold openMatchDetail, bind. rewrite Hm. simpl.
  rewrite (getStadiumById_records _ ss) by exact Hss.
  destruct (List.find _ ss) as [st |]; simpl.
  - destruct (Htpl (VObj st)) as [markup Hmarkup]. exists markup.
    rewrite Hmarkup. simpl.
    destruct (joinButton (VObj m) (currentUser s)); reflexivity.
  - destruct (Htpl (lookup_field "_stadium" m)) as [markup Hmarkup].
    exists markup. rewrite Hmarkup. simpl.
    destruct (joinButton (VObj m) (currentUser s)); reflexivity.
Qed.

(** C4. For a match that is found and a signed-in user, [openMatchDetail]
    leaves the join button in exactly one of three states: the disabled
    Already Joined when the user's name is in the match's players;
    otherwise the disabled Match is Full when the status is full;
    otherwise the actionable Join. *)
Theorem join_button_three_states (s : state) (id : value)
        (ss : list record) (m u : record) (ps : list value) :
  getMatchById id s = Ret (VObj m) s ->
  stadiums s = VArr (records ss) ->
  (forall stadium, exists markup,
      renderMatchDetail E stadium (VObj m) = Ok markup) ->
  currentUser s = VObj u ->
  lookup_field "players" m = VArr ps ->
  exists s',
    openMatchDetail E id s = Ret tt s' /\
    (is_member (lookup_field "name" u) ps ->
     join_match_btn (dom s') = already_joined) /\
    (~ is_member (lookup_field "name" u) ps ->
     lookup_field "status" m = VStr "full" ->
     join_match_btn (dom s') = match_is_full) /\
    (~ is_member (lookup_field "name" u) ps ->
     lookup_field "status" m <> VStr "full" ->
     join_match_btn (dom s') = join_this_match) /\
    already_joined <> match_is_full /\
    already_joined <> join_this_match /\
    match_is_full <> join_this_match.
Proof.
  intros Hm Hss Htpl Hu Hps.
  destruct (openMatchDetail_found s id ss m Hm Hss Htpl) as [markup Hrun].
  rewrite Hu, (joinButton_states m u ps Hps) in Hrun.
  eexists. split; [exact Hrun |].
  cbn [dom with_dom set_navigation join_match_btn set_join_match_btn].
  repeat split.
  - intros Hin. apply existsb_member in Hin. rewrite Hin. reflexivity.
  - intros Hout Hfull.
    destruct (existsb _ ps) eqn:Hex;
      [exfalso; apply Hout, existsb_member, Hex |].
    apply strict_eq_string in Hfull. rewrite Hfull. reflexivity.
  - intros Hout Hfull.
    destruct (existsb _ ps) eqn:Hex;
      [exfalso; apply Hout, existsb_member, Hex |].
    destruct (strict_eq _ _) eqn:Heq; [| reflexivity].
    exfalso. apply Hfull, strict_eq_string, Heq.
  - discriminate.
  - discriminate.
  - discriminate.
Qed.

(** *** Reading the name of a guest *)

Lemma players_include_guest (m : value) :
  exists msg, players_include m VNull = Raise (TypeError msg).
Proof.
  unfold players_include, cannot_read.
  destruct m as [| | b | n | | t | xs | fs]; simpl; try (eexists; reflexivity).
  destruct (nullish (lookup_field "players" fs)); eexists; reflexivity.
Qed.

Lemma joinButton_guest (m : value) :
  exists msg, joinButton m VNull = Raise (TypeError msg).
Proof.
  unfold joinButton. destruct (players_include_guest m) as [msg ->].
  exists msg. reflexivity.
Qed.

Lemma joinButton_guest_record (m : record) (ps : list value) :
  lookup_field "players" m = VArr ps ->
  joinButton (VObj m) VNull = Raise (cannot_read VNull "name").
Proof.
  intros Hps. unfold joinButton, players_include. simpl. rewrite Hps.
  reflexivity.
Qed.

Lemma my_tab_guest (m : value) (ms : list value) :
  exists msg, tab_filter E "my" VNull (m :: ms) = Raise (TypeError msg).
Proof.
  unfold tab_filter. simpl.
  destruct (players_include_guest m) as [msg ->]. exists msg. reflexivity.
Qed.

(** C10. With no user signed in ([currentUser] is [null]) the three reads
    of [currentUser.name] throw a [TypeError]: the join button
    computation and the predicate of the my tab on every match, hence
    [openMatchDetail] once its match is found and [renderMatchesList] on
    the my tab once there is a match to filter; and [joinMatchById] on
    every identifier, before it sends anything. *)
Theorem guest_name_reads_throw (s : state) :
  currentUser s = VNull ->
  (forall m, exists msg, joinButton m (currentUser s) = Raise (TypeError msg)) /\
  (forall m, exists msg,
      players_include m (currentUser s) = Raise (TypeError msg)) /\
  (forall id ss m,
      getMatchById id s = Ret (VObj m) s ->
      stadiums s = VArr (records ss) ->
      (forall stadium, exists markup,
          renderMatchDetail E stadium (VObj m) = Ok markup) ->
      exists msg s',
        openMatchDetail E id s = Throw (TypeError msg) s' /\
        join_match_btn (dom s') = join_match_btn (dom s)) /\
  (currentMatchTab s = "my" -> matches s <> [] ->
   exists msg, renderMatchesList E s = Throw (TypeError msg) s) /\
  (forall id, joinMatchById E id s = Throw (cannot_read VNull "name") s).
Proof.
  intros Hguest. rewrite Hguest.
  split; [apply joinButton_guest |].
  split; [apply players_include_guest |].
  split; [| split].
  - intros id ss m Hm Hss Htpl.
    destruct (openMatchDetail_found s id ss m Hm Hss Htpl) as [markup Hrun].
    rewrite Hguest in Hrun.
    destruct (joinButton_guest (VObj m)) as [msg Hmsg].
    rewrite Hmsg in Hrun. eexists msg, _. split; [exact Hrun |].
    reflexivity.
  - intros Htab Hms. unfold renderMatchesList. run.
    rewrite Htab, Hguest.
    destruct (matches s) as [| m ms]; [congruence |].
    destruct (my_tab_guest m ms) as [msg ->]. exists msg. reflexivity.
  - intros id. unfold joinMatchById. run. rewrite Hguest. reflexivity.
Qed.

(** *** The past tab *)

Lemma Array_filter_records (cb : value -> result bool) (p : record -> bool)
      (rs : list record) :
  (forall r, cb (VObj r) = Ok (p r)) ->
  Array_filter cb (records rs) = Ok (records (List.filter p rs)).
Proof.
  intros Hcb. induction rs as [| r rs IH]; simpl; [reflexivity |].
  rewrite Hcb. simpl. fold (records rs). rewrite IH. simpl.
  destruct (p r); reflexivity.
Qed.

Lemma past_threshold_literal : past_threshold E = Some february_14_2026.
Proof. reflexivity. Qed.

Lemma is_past_record (m : record) :
  is_past E (VObj m) =
  Ok (date_lt (new_Date E (lookup_field "date" m)) (Some february_14_2026)).
Proof. reflexivity. Qed.

Lemma date_lt_threshold (d : option Z) (limit : Z) :
  date_lt d (Some limit) = true <-> exists t, d = Some t /\ t < limit.
Proof.
  destruct d as [t |]; simpl.
  - rewrite Z.ltb_lt. split.
    + intros H. exists t. split; [reflexivity | exact H].
    + intros (t' & Heq & H). injection Heq as ->. exact H.
  - split; [discriminate | intros (t & Heq & _); discriminate].
Qed.

(** C8. On the past tab [renderMatchesList] lists exactly the matches
    whose date is a valid date strictly before the literal 2026-02-14
    (midnight UTC), in their order, and the empty state when there is
    none; a match is classified past by [is_past] exactly on that
    condition.  The clock plays no part: had it shown any other time,
    [renderMatchesList] would have done the same. *)
Theorem past_tab_fixed_threshold :
  past_threshold E = Some february_14_2026 /\
  (forall m : record,
      exists b, is_past E (VObj m) = Ok b /\
                (b = true <->
                 exists t, new_Date E (lookup_field "date" m) = Some t /\
                           t < february_14_2026)) /\
  (forall user (ms : list record),
      tab_filter E "past" user (records ms) =
      Ok (records
            (List.filter
               (fun m => date_lt (new_Date E (lookup_field "date" m))
                                 (Some february_14_2026)) ms))) /\
  (forall s t,
      renderMatchesList E (set_now t s) = at_time t (renderMatchesList E s)) /\
  (forall s (ms : list record),
      matches s = records ms ->
      currentMatchTab s = "past" ->
      (forall m,
          In m (dated_before E february_14_2026 ms) <->
          In m ms /\
          exists t, new_Date E (lookup_field "date" m) = Some t /\
                    t < february_14_2026) /\
      (forall cards,
          Array_map (renderMatchCard E (stadiums s))
                    (records (dated_before E february_14_2026 ms)) = Ok cards ->
          renderMatchesList E s =
          Ret tt (with_dom
                    (set_matches_list
                       (Some (listed (dated_before E february_14_2026 ms)
                                     cards))) s)) /\
      (forall e,
          Array_map (renderMatchCard E (stadiums s))
                    (records (dated_before E february_14_2026 ms)) = Raise e ->
          renderMatchesList E s = Throw e s)).
Proof.
  split; [reflexivity |]. split; [| split; [| split]].
  - intros m. eexists. split; [apply is_past_record |].
    apply date_lt_threshold.
  - intros user ms. unfold tab_filter. simpl.
    apply Array_filter_records. intros r. apply is_past_record.
  - intros s t. unfold renderMatchesList, render_cards. run. simpl.
    destruct (tab_filter E (currentMatchTab s) (currentUser s) (matches s))
      as [[| m ms] | e]; cbv beta iota; try reflexivity.
    destruct (Array_map _ (m :: ms)); reflexivity.
  - intros s ms Hms Htab.
    assert (Hfilter : tab_filter E "past" (currentUser s) (records ms) =
                      Ok (records (dated_before E february_14_2026 ms))).
    { unfold tab_filter. simpl.
      apply Array_filter_records. intros r. apply is_past_record. }
    split; [| split].
    + intros m. unfold dated_before. rewrite filter_In.
      rewrite date_lt_threshold. reflexivity.
    + intros cards Hcards. unfold renderMatchesList, render_cards. run.
      rewrite Hms, Htab, Hfilter.
      destruct (dated_before E february_14_2026 ms) as [| m0 rest];
        [reflexivity |].
      cbv beta iota. change (records (m0 :: rest)) with
        (VObj m0 :: records rest) in *.
      cbv beta iota. rewrite Hcards. reflexivity.
    + intros e He. unfold renderMatchesList, render_cards. run.
      rewrite Hms, Htab, Hfilter.
      destruct (dated_before E february_14_2026 ms) as [| m0 rest];
        [discriminate He |].
      change (records (m0 :: rest)) with (VObj m0 :: records rest) in *.
      cbv beta iota. rewrite He. reflexivity.
Qed.

(** *** Creating a match *)

(** C6. A submission whose selected friends plus the creator exceed the
    entered maximum is rejected: [createMatch] shows a warning notice and
    returns, having changed nothing else and sent no request. *)
Theorem createMatch_rejects_over_capacity (s : state) (n : Z) :
  parseInt (new_match_players (create_match_form (dom s))) = VNum n ->
  n < Z.of_nat (length (new_match_friends (create_match_form (dom s)))) + 1 ->
  exists message,
    createMatch E s = Ret tt (with_notice "⚠️" message s) /\
    requests (with_notice "⚠️" message s) = requests s.
Proof.
  intros Hmax Hover. unfold createMatch, showToast, with_notice. run.
  cbv zeta.
  destruct (String.eqb (trim _) ""); [eexists; split; reflexivity |].
  destruct (String.eqb (new_match_stadium _) "");
    [eexists; split; reflexivity |].
  destruct (String.eqb (new_match_date _) "" || String.eqb (new_match_time _) "");
    [eexists; split; reflexivity |].
  rewrite Hmax. unfold js_gt.
  apply Z.ltb_lt in Hover. rewrite Hover.
  eexists; split; reflexivity.
Qed.

(** *** Logging in *)

Lemma find_phone (phone : string) (rs : list record) :
  Array_find (has_phone phone) (records rs) =
  Ok (match List.find (phone_is phone) rs with
      | Some r => VObj r
      | None => VUndefined
      end).
Proof. apply Array_find_records. reflexivity. Qed.

Lemma filled_check (s : state) :
  login_filled s ->
  String.eqb (trim (login_username (login (dom s)))) ""
  || String.eqb (trim (login_phone (login (dom s)))) ""
  || String.eqb (login_age (login (dom s))) ""
  || String.eqb (login_position (login (dom s))) ""
  || String.eqb (login_skill (login (dom s))) "" = false.
Proof.
  unfold login_filled, submitted_phone. intros (H1 & H2 & H3 & H4 & H5).
  apply String.eqb_neq in H1, H2, H3, H4, H5.
  rewrite H1, H2, H3, H4, H5. reflexivity.
Qed.

(** C7, as amended. When every field of the login form is filled in and
    the trimmed phone number equals the phone of a loaded user record,
    [submitLogin] makes the first such record the current user, stores it
    in the session store and sends nothing; whatever the fields hold, a
    submission whose phone number matches a loaded record sends no
    request, so no create-user call. *)
Theorem submitLogin_existing_user (s : state) (rs : list record) (u : record) :
  users s = records rs ->
  List.find (phone_is (submitted_phone s)) rs = Some u ->
  (login_filled s ->
   currentUser (final_state (submitLogin E s)) = VObj u /\
   localStorage (final_state (submitLogin E s)) =
     <[storage_key := Parses (json_copy (VObj u))]> (localStorage s) /\
   (forall header form,
       renderProfileHeader E (VObj u) = Ok header ->
       renderProfileForm E (VObj u) (selectedAvatarDataUrl s) = Ok form ->
       exists s', submitLogin E s = Ret tt s')) /\
  requests (final_state (submitLogin E s)) = requests s.
Proof.
  intros Husers Hfind.
  assert (Hrun : login_filled s ->
    submitLogin E s =
    (navigateTo "home" true >> updateProfileHeader E >> renderEditProfile E)
      (with_notice "✅"
         ("Welcome back, " +:+ to_string (lookup_field "name" u) +:+ "!")
         (set_localStorage
            (<[storage_key := Parses (json_copy (VObj u))]> (localStorage s))
            (set_currentUser (VObj u) s)))).
  { intros Hfilled. unfold submitLogin. unfold bind at 1. unfold read at 1.
    cbv zeta. rewrite (filled_check s Hfilled).
    unfold bind at 1. unfold read at 1. rewrite Husers.
    unfold bind at 1. unfold lift at 1. rewrite find_phone.
    fold (submitted_phone s). rewrite Hfind. reflexivity. }
  split.
  - intros Hfilled. rewrite (Hrun Hfilled).
    unfold navigateTo, updateProfileHeader, renderEditProfile. run. simpl.
    split; [| split].
    + destruct (renderProfileHeader E (VObj u)); [| reflexivity]. simpl.
      destruct (renderProfileForm E (VObj u) _); reflexivity.
    + destruct (renderProfileHeader E (VObj u)); [| reflexivity]. simpl.
      destruct (renderProfileForm E (VObj u) _); reflexivity.
    + intros header form Hheader Hform. rewrite Hheader. simpl.
      rewrite Hform. eexists. reflexivity.
  - destruct (String.eqb (trim (login_username (login (dom s)))) ""
              || String.eqb (trim (login_phone (login (dom s)))) ""
              || String.eqb (login_age (login (dom s))) ""
              || String.eqb (login_position (login (dom s))) ""
              || String.eqb (login_skill (login (dom s))) "") eqn:Hblank.
    + unfold submitLogin. unfold bind at 1. unfold read at 1. cbv zeta.
      rewrite Hblank. reflexivity.
    + assert (Hfilled : login_filled s).
      { unfold login_filled, submitted_phone.
        repeat (apply orb_false_iff in Hblank; destruct Hblank as [Hblank ?]).
        repeat split; apply String.eqb_neq; assumption. }
      rewrite (Hrun Hfilled).
      unfold navigateTo, updateProfileHeader, renderEditProfile. run. simpl.
      destruct (renderProfileHeader E (VObj u)); [| reflexivity]. simpl.
      destruct (renderProfileForm E (VObj u) _); reflexivity.
Qed.

(** *** A join the server refuses *)

(** On a failed call [apiPost] returns the object that carries [error]. *)
Lemma apiPost_failure (ep : string) (data : value) (s : state) :
  call_fails (fetch E (requests s)
                {| method := "POST"; endpoint := ep;
                   body := Some (json_copy data) |}) ->
  exists msg s',
    apiPost E ep data s = Ret (VObj [("error", VStr msg)]) s' /\
    only_logged s s' /\
    requests s' = (requests s ++
                   [{| method := "POST"; endpoint := ep;
                       body := Some (json_copy data) |}])%list.
Proof.
  intros Hfail. unfold apiPost, call_fetch, error_text, console_error. run.
  destruct (fetch E (requests s) _) as [err | res]; simpl in Hfail.
  - eexists _, _. split; [reflexivity |]. split; [| reflexivity].
    eapply only_logged_trans;
      [apply only_logged_requests | apply only_logged_console].
  - assert (Hlog : forall l c,
               only_logged s (set_console c (set_requests l s))).
    { intros l c. eapply only_logged_trans;
        [apply only_logged_requests | apply only_logged_console]. }
    destruct (ok res) eqn:Hok; simpl.
    + destruct Hfail as [Hno | [e He]]; [discriminate |].
      rewrite He. eexists _, _. split; [reflexivity |].
      split; [apply Hlog | reflexivity].
    + destruct (json res) as [errData | e]; simpl.
      * destruct (get errData "error") as [v | e]; simpl.
        -- destruct (truthy v); simpl.
           ++ eexists _, _. split; [reflexivity |].
              split; [apply Hlog | reflexivity].
           ++ destruct (get errData "message"); simpl;
                eexists _, _; (split; [reflexivity |]);
                (split; [apply Hlog | reflexivity]).
        -- eexists _, _. split; [reflexivity |].
           split; [apply Hlog | reflexivity].
      * eexists _, _. split; [reflexivity |].
        split; [apply Hlog | reflexivity].
Qed.

Lemma final_state_bind {A B} (m : M A) (k : A -> M B) (s : state) :
  final_state (bind m k s) =
  match m s with
  | Ret a s' => final_state (k a s')
  | Throw _ s' => s'
  end.
Proof. unfold bind. destruct (m s); reflexivity. Qed.

Lemma loadMatches_frame (s : state) :
  dom (final_state (loadMatches E s)) = dom s /\
  requests (final_state (loadMatches E s)) =
  (requests s ++ [{| method := "GET"; endpoint := "/matches";
                     body := None |}])%list.
Proof.
  destruct (apiGet_returns "/matches" s) as (v & s1 & Hget & Hlog & Hreq).
  pose proof (only_logged_frame _ _ Hlog) as (_ & _ & _ & _ & _ & Hdom & _).
  unfold loadMatches, bind. rewrite Hget.
  destruct (truthy v); simpl; [| split; assumption].
  unfold lift. destruct (payload_map v normalizeMatch); simpl;
    split; assumption.
Qed.

Lemma renderMatchesList_frame (s : state) :
  toasts (dom (final_state (renderMatchesList E s))) = toasts (dom s) /\
  requests (final_state (renderMatchesList E s)) = requests s.
Proof.
  unfold renderMatchesList, render_cards. run.
  destruct (tab_filter E _ _ _) as [[| m ms] | e]; cbv beta iota;
    try (split; reflexivity).
  destruct (Array_map _ (m :: ms)); split; reflexivity.
Qed.

Lemma renderHomeMatches_frame (s : state) :
  toasts (dom (final_state (renderHomeMatches E s))) = toasts (dom s) /\
  requests (final_state (renderHomeMatches E s)) = requests s.
Proof.
  unfold renderHomeMatches, render_cards. run.
  destruct (Array_filter _ (matches s)) as [upcoming | e];
    [| split; reflexivity].
  destruct (Array_map _ (firstn 3 upcoming)); split; reflexivity.
Qed.

(** Whenever the join call fails, [joinMatchById] shows the success
    notice (with the title of the error object, which has none), reloads
    the matches, and never shows the failure notice. *)
Lemma joinMatchById_failed_call (s : state) (id : value) (u : record) :
  currentUser s = VObj u ->
  call_fails (fetch E (requests s) (join_request id (lookup_field "name" u))) ->
  toasts (dom (final_state (joinMatchById E id s))) =
    (toasts (dom s) ++ [success_notice "undefined"])%list /\
  requests (final_state (joinMatchById E id s)) =
    (requests s ++ [join_request id (lookup_field "name" u);
                    {| method := "GET"; endpoint := "/matches";
                       body := None |}])%list.
Proof.
  intros Hu Hfail.
  destruct (apiPost_failure _ (VObj [("playerName", lookup_field "name" u)])
              s Hfail) as (msg & s1 & Hpost & Hlog & Hreq).
  pose proof (only_logged_frame _ _ Hlog) as (_ & _ & _ & _ & _ & Hdom & _).
  assert (Hrun : joinMatchById E id s =
            (loadMatches E >> renderMatchesList E >> renderHomeMatches E)
              (with_dom (fun p => set_toasts
                                    (toasts p ++ [success_notice "undefined"]) p)
                 s1)).
  { unfold joinMatchById, bind, read, lift. rewrite Hu. cbn [get].
    rewrite Hpost. reflexivity. }
  rewrite Hrun. clear Hrun. rewrite !final_state_bind.
  pose proof (loadMatches_frame
                (with_dom (fun p => set_toasts
                                      (toasts p ++ [success_notice "undefined"]) p)
                   s1))
    as (Hd2 & Hr2).
  destruct (loadMatches E _) as [ms s2 | e s2]; simpl in Hd2, Hr2.
  - rewrite !final_state_bind.
    pose proof (renderMatchesList_frame s2) as (Ht3 & Hr3).
    destruct (renderMatchesList E s2) as [[] s3 | e s3]; simpl in Ht3, Hr3.
    + pose proof (renderHomeMatches_frame s3) as (Ht4 & Hr4).
      rewrite Ht4, Hr4, Ht3, Hr3, Hd2, Hr2, Hdom, Hreq.
      split; [reflexivity |]. rewrite <- app_assoc. reflexivity.
    + rewrite Ht3, Hr3, Hd2, Hr2, Hdom, Hreq.
      split; [reflexivity |]. rewrite <- app_assoc. reflexivity.
  - rewrite Hd2, Hr2, Hdom, Hreq.
    split; [reflexivity |]. rewrite <- app_assoc. reflexivity.
Qed.

End Properties.

(** *** Closing a modal *)

Lemma the_modal_found (id property : string) (s : state) (m : modal) :
  modals (dom s) !! id = Some m -> the_modal id property s = Ret m s.
Proof. intros H. unfold the_modal. run. rewrite H. reflexivity. Qed.

(** Writing back what the modal already holds changes nothing. *)
Lemma update_modal_same (id : string) (f : modal -> modal) (s : state) :
  (forall x, modals (dom s) !! id = Some x -> f x = x) ->
  update_modal id f s = Ret tt s.
Proof.
  intros Hf. unfold update_modal, write, with_dom. f_equal.
  rewrite (alter_id f (modals (dom s)) id Hf).
  destruct s as [? ? ? ? ? ? ? ? ? ? ? ? ? ? ? d]. destruct d. reflexivity.
Qed.

(** Closing a modal that holds no handler and is already hidden returns
    and changes nothing. *)
Lemma removeModalHandlers_closed (id : string) (s : state) (m : modal) :
  modals (dom s) !! id = Some m ->
  _overlayClick m = None -> _keyHandler m = None ->
  _previouslyFocused m = None -> aria_hidden m = Some "true" ->
  _removeModalHandlers id s = Ret tt s.
Proof.
  intros Hm Ho Hk Hp Ha. unfold _removeModalHandlers.
  unfold bind at 1. rewrite (the_modal_found _ _ _ _ Hm).
  rewrite Ho, Hk, Hp. unfold bind, ret.
  assert (Hsame : forall f, f m = m -> update_modal id f s = Ret tt s).
  { intros f Hf. apply update_modal_same. intros x Hx.
    rewrite Hm in Hx. injection Hx as <-. exact Hf. }
  rewrite (Hsame (set_aria_hidden (Some "true")))
    by (destruct m; simpl in *; subst; reflexivity).
  rewrite (Hsame (set_overlayClick None))
    by (destruct m; simpl in *; subst; reflexivity).
  rewrite (Hsame (set_keyHandler None))
    by (destruct m; simpl in *; subst; reflexivity).
  rewrite (Hsame (set_previouslyFocused None))
    by (destruct m; simpl in *; subst; reflexivity).
  reflexivity.
Qed.

(** C9. On any modal of the page, whatever handlers it holds,
    [_removeModalHandlers] returns without throwing and leaves the modal
    hidden to assistive technology with its three properties cleared;
    run again on the modal so closed, it returns again and changes
    nothing. *)
Theorem closing_a_modal_is_idempotent (s : state) (id : string) (m : modal) :
  modals (dom s) !! id = Some m ->
  exists s1 m1,
    _removeModalHandlers id s = Ret tt s1 /\
    modals (dom s1) !! id = Some m1 /\
    aria_hidden m1 = Some "true" /\
    _overlayClick m1 = None /\
    _keyHandler m1 = None /\
    _previouslyFocused m1 = None /\
    _removeModalHandlers id s1 = Ret tt s1.
Proof.
  intros Hm.
  assert (Hfirst : exists s1 m1,
             _removeModalHandlers id s = Ret tt s1 /\
             modals (dom s1) !! id = Some m1 /\
             aria_hidden m1 = Some "true" /\
             _overlayClick m1 = None /\
             _keyHandler m1 = None /\
             _previouslyFocused m1 = None).
  { unfold _removeModalHandlers. unfold bind at 1.
    rewrite (the_modal_found _ _ _ _ Hm).
    unfold update_modal, focus. run.
    destruct (_overlayClick m) as [ho |], (_keyHandler m) as [hk |],
             (_previouslyFocused m) as [[name can_focus tabbable] |];
      simpl; try destruct can_focus; try destruct tabbable; simpl;
      eexists _, _; (split; [reflexivity |]); simpl;
      rewrite !lookup_alter_eq, Hm; simpl;
      (split; [reflexivity |]); repeat split. }
  destruct Hfirst as (s1 & m1 & Hrun & Hm1 & Ha & Ho & Hk & Hp).
  exists s1, m1. repeat (split; [assumption |]).
  apply (removeModalHandlers_closed id s1 m1); assumption.
Qed.

(* ================================================================== *)
(** ** Further properties: the adapter *)
(* ================================================================== *)

Section Adapter.

Variable E : environment.

Lemma error_text_server_message (res : response) (s : state) :
  exists v, error_text res s = Ret v s /\ to_string v = server_message res.
Proof.
  unfold error_text, server_message. run.
  destruct (json res) as [d | e]; [| eexists; split; reflexivity].
  destruct d; simpl; try (eexists; split; reflexivity).
  destruct (truthy (lookup_field "error" fs)) eqn:He;
    [eexists; split; reflexivity |].
  unfold js_or. destruct (truthy (lookup_field "message" fs)) eqn:Hm;
    eexists; split; reflexivity.
Qed.

Lemma apiGet_run (ep : string) (s : state) :
  apiGet E ep s =
    Ret (match caught api_error (fetch E (requests s) (get_request ep)) with
         | None => decoded (fetch E (requests s) (get_request ep))
         | Some _ => VNull
         end)
        (after_call (get_request ep) ("GET " +:+ ep +:+ " failed:")
           (caught api_error (fetch E (requests s) (get_request ep))) s).
Proof.
  unfold apiGet, call_fetch, console_error, after_call, caught, decoded,
    get_request. run.
  destruct (fetch E (requests s) _) as [err | [code [b | e]]];
    try reflexivity; simpl; destruct (ok _); reflexivity.
Qed.

Lemma apiDelete_run (ep : string) (s : state) :
  apiDelete E ep s =
    Ret (match caught api_error (fetch E (requests s) (delete_request ep)) with
         | None => decoded (fetch E (requests s) (delete_request ep))
         | Some _ => VNull
         end)
        (after_call (delete_request ep) ("DELETE " +:+ ep +:+ " failed:")
           (caught api_error (fetch E (requests s) (delete_request ep))) s).
Proof.
  unfold apiDelete, call_fetch, console_error, after_call, caught, decoded,
    delete_request. run.
  destruct (fetch E (requests s) _) as [err | [code [b | e]]];
    try reflexivity; simpl; destruct (ok _); reflexivity.
Qed.

(** X1. The two reading calls of the adapter never throw.  [apiGet] and
    [apiDelete] send exactly one request and return the decoded body of
    a successful answer; on any failure (a rejected request, a status
    outside 200-299, a body that does not decode) they return [null]
    and print one line; nothing else of the state changes. *)
Theorem reading_calls_never_throw (ep : string) (s : state) :
  apiGet E ep s =
    Ret (match caught api_error (fetch E (requests s) (get_request ep)) with
         | None => decoded (fetch E (requests s) (get_request ep))
         | Some _ => VNull
         end)
        (after_call (get_request ep) ("GET " +:+ ep +:+ " failed:")
           (caught api_error (fetch E (requests s) (get_request ep))) s) /\
  apiDelete E ep s =
    Ret (match caught api_error (fetch E (requests s) (delete_request ep)) with
         | None => decoded (fetch E (requests s) (delete_request ep))
         | Some _ => VNull
         end)
        (after_call (delete_request ep) ("DELETE " +:+ ep +:+ " failed:")
           (caught api_error (fetch E (requests s) (delete_request ep))) s) /\
  (forall refusal a,
      call_fails a <-> exists err, caught refusal a = Some err).
Proof.
  split; [apply apiGet_run |]. split; [apply apiDelete_run |].
  intros refusal a. unfold caught, call_fails.
  destruct a as [err | res].
  - split; [intros _; eexists; reflexivity | intros _; exact I].
  - destruct (ok res).
    + destruct (json res) as [b | e].
      * split; [intros [H | [e He]]; discriminate | intros [err H]; discriminate].
      * split; [intros _; eexists; reflexivity |].
        intros _. right. eexists. reflexivity.
    + split; [intros _; eexists; reflexivity | intros _; left; reflexivity].
Qed.

Lemma apiPost_run (ep : string) (data : value) (s : state) :
  apiPost E ep data s =
    Ret (match caught server_message
                 (fetch E (requests s) (post_request ep data)) with
         | None => decoded (fetch E (requests s) (post_request ep data))
         | Some err => VObj [("error", VStr (message err))]
         end)
        (after_call (post_request ep data) ("POST " +:+ ep +:+ " failed:")
           (caught server_message
                   (fetch E (requests s) (post_request ep data))) s).
Proof.
  unfold apiPost, call_fetch, console_error, after_call, caught, decoded,
    post_request.
  unfold bind at 1. unfold try_catch.
  destruct (fetch E (requests s) _) as [err | res]; [reflexivity |].
  unfold bind at 1. destruct (ok res) eqn:Hok; simpl.
  - unfold lift. destruct res as [code [b | e]]; simpl; reflexivity.
  - unfold bind.
    destruct (error_text_server_message res
                (set_requests
                   (requests s ++
                    [{| method := "POST"; endpoint := ep;
                        body := Some (json_copy data) |}]) s))
      as (v & -> & Hv).
    unfold throw, write, ret. simpl. rewrite Hv. reflexivity.
Qed.

Lemma apiPut_run (ep : string) (data : value) (s : state) :
  apiPut E ep data s =
    Ret (match caught server_message
                 (fetch E (requests s) (put_request ep data)) with
         | None => decoded (fetch E (requests s) (put_request ep data))
         | Some err => VObj [("error", VStr (message err))]
         end)
        (after_call (put_request ep data) ("PUT " +:+ ep +:+ " failed:")
           (caught server_message
                   (fetch E (requests s) (put_request ep data))) s).
Proof.
  unfold apiPut, call_fetch, console_error, after_call, caught, decoded,
    put_request.
  unfold bind at 1. unfold try_catch.
  destruct (fetch E (requests s) _) as [err | res]; [reflexivity |].
  unfold bind at 1. destruct (ok res) eqn:Hok; simpl.
  - unfold lift. destruct res as [code [b | e]]; simpl; reflexivity.
  - unfold bind.
    destruct (error_text_server_message res
                (set_requests
                   (requests s ++
                    [{| method := "PUT"; endpoint := ep;
                        body := Some (json_copy data) |}]) s))
      as (v & -> & Hv).
    unfold throw, write, ret. simpl. rewrite Hv. reflexivity.
Qed.

Lemma caught_failure (a : fetch_result) :
  call_fails a -> exists err, caught server_message a = Some err.
Proof.
  intros Hfail. unfold caught. destruct a as [err | res]; simpl in *.
  - eexists. reflexivity.
  - destruct (ok res).
    + destruct Hfail as [H | [e He]]; [discriminate |].
      rewrite He. eexists. reflexivity.
    + eexists. reflexivity.
Qed.

Lemma after_call_requests (req : request) (label : string) (e : option exn)
      (s : state) :
  requests (after_call req label e s) = (requests s ++ [req])%list /\
  dom (after_call req label e s) = dom s /\
  currentUser (after_call req label e s) = currentUser s /\
  currentMatch (after_call req label e s) = currentMatch s /\
  localStorage (after_call req label e s) = localStorage s.
Proof. unfold after_call. destruct e; repeat split. Qed.

(** X2. The two writing calls never throw either.  [apiPost] and
    [apiPut] send one request carrying the JSON copy of the data and
    return the decoded body of a successful answer; on any failure they
    return an object whose only property [error] is the text of what
    went wrong: for a refused request the server's [error], else its
    [message], else the status.  An object is truthy, so a caller that
    tests the result alone sees a failure as a success. *)
Theorem writing_calls_never_throw (ep : string) (data : value) (s : state) :
  (apiPost E ep data s =
     Ret (match caught server_message
                  (fetch E (requests s) (post_request ep data)) with
          | None => decoded (fetch E (requests s) (post_request ep data))
          | Some err => VObj [("error", VStr (message err))]
          end)
         (after_call (post_request ep data) ("POST " +:+ ep +:+ " failed:")
            (caught server_message
                    (fetch E (requests s) (post_request ep data))) s)) /\
  (apiPut E ep data s =
     Ret (match caught server_message
                  (fetch E (requests s) (put_request ep data)) with
          | None => decoded (fetch E (requests s) (put_request ep data))
          | Some err => VObj [("error", VStr (message err))]
          end)
         (after_call (put_request ep data) ("PUT " +:+ ep +:+ " failed:")
            (caught server_message
                    (fetch E (requests s) (put_request ep data))) s)) /\
  (forall a, call_fails a ->
             exists err, caught server_message a = Some err /\
                         truthy (VObj [("error", VStr (message err))]) = true).
Proof.
  split; [apply apiPost_run |]. split; [apply apiPut_run |].
  intros a Hfail. destruct (caught_failure a Hfail) as [err Herr].
  exists err. split; [exact Herr | reflexivity].
Qed.

End Adapter.

(* ================================================================== *)
(** ** Further properties: the session store and the history *)
(* ================================================================== *)

Lemma json_copy_id (v : value) : is_json v = true -> json_copy v = v.
Proof.
  revert v. fix IH 1. intros [| | b | n | | t | xs | fs];
    try reflexivity; try discriminate.
  - intros H. cbn [json_copy]. f_equal.
    induction xs as [| x xs IHxs]; [reflexivity |].
    cbn [is_json forallb] in H. apply andb_true_iff in H.
    destruct H as [Hx Hxs]. cbn [List.map]. rewrite (IHxs Hxs).
    pose proof (IH x Hx) as Hc.
    destruct x; try discriminate Hx; rewrite Hc; reflexivity.
  - intros H. cbn [json_copy]. f_equal.
    induction fs as [| [k x] fs IHfs]; [reflexivity |].
    cbn [is_json forallb] in H. apply andb_true_iff in H.
    destruct H as [Hx Hfs]. cbn [flat_map]. rewrite (IHfs Hfs).
    pose proof (IH x Hx) as Hc.
    destruct x; try discriminate Hx; rewrite Hc; reflexivity.
Qed.

(** X3. What the session store is given, it gives back.  After
    [saveCurrentUser u] with a truthy [u], [getSavedUser] returns the
    JSON copy of [u], which is [u] itself when [u] holds no [undefined]
    and no [NaN]; after saving a falsy value, or after
    [clearCurrentUser], or over an entry that does not parse, it
    returns [null].  Only the entry of the session changes. *)
Theorem session_store_round_trip (u : value) (s : state) :
  (saveCurrentUser u >> getSavedUser) s =
    (if truthy u
     then Ret (json_copy u) (with_session (Some (Parses (json_copy u))) s)
     else Ret VNull (with_session None s)) /\
  (truthy u = true -> is_json u = true ->
   (saveCurrentUser u >> getSavedUser) s =
     Ret u (with_session (Some (Parses u)) s)) /\
  (clearCurrentUser >> getSavedUser) s = Ret VNull (with_session None s) /\
  getSavedUser (with_session (Some Unparsable) s) =
    Ret VNull (with_session (Some Unparsable) s) /\
  (forall x k, k <> storage_key ->
               localStorage (with_session x s) !! k = localStorage s !! k).
Proof.
  assert (Hsaved :
    (saveCurrentUser u >> getSavedUser) s =
    (if truthy u
     then Ret (json_copy u) (with_session (Some (Parses (json_copy u))) s)
     else Ret VNull (with_session None s))).
  { unfold saveCurrentUser, getSavedUser, with_session.
    destruct (truthy u); run; cbn [localStorage set_localStorage].
    - rewrite lookup_insert_eq. reflexivity.
    - rewrite lookup_delete_eq. reflexivity. }
  split; [exact Hsaved |]. split; [| split; [| split]].
  - intros Htruthy Hjson. rewrite Hsaved, Htruthy.
    rewrite (json_copy_id u Hjson). reflexivity.
  - unfold clearCurrentUser, getSavedUser, with_session. run.
    cbn [localStorage set_localStorage].
    rewrite lookup_delete_eq. reflexivity.
  - unfold getSavedUser, with_session. run.
    cbn [localStorage set_localStorage].
    rewrite lookup_insert_eq. reflexivity.
  - intros x k Hk. unfold with_session. cbn [localStorage set_localStorage].
    destruct x.
    + apply lookup_insert_ne. congruence.
    + apply lookup_delete_ne. congruence.
Qed.

(** [goBack] on a history that ends with [prev]. *)
Lemma goBack_pops (s : state) (h : list string) (prev : string) :
  pageHistory s = (h ++ [prev])%list ->
  goBack s = Ret tt (set_navigation prev h s).
Proof.
  intros Hh. destruct s. cbn [pageHistory] in Hh. subst.
  unfold goBack, pop_history, navigateTo. run.
  cbn -[removelast List.last app].
  destruct h as [| a h']; cbn [app]; cbv beta iota; [reflexivity |].
  cbn [pageHistory currentPage].
  change (a :: h' ++ [prev])%list with ((a :: h') ++ [prev])%list.
  rewrite removelast_last, last_last. reflexivity.
Qed.

Lemma navigateTo_moves (p : string) (s : state) :
  p <> currentPage s ->
  navigateTo p true s =
    Ret tt (set_navigation p (pageHistory s ++ [currentPage s])%list s).
Proof.
  intros Hp. unfold navigateTo, write.
  assert (H : String.eqb (currentPage s) p = false)
    by (apply String.eqb_neq; congruence).
  rewrite H. reflexivity.
Qed.

Lemma back_last (n : nat) (s : state) :
  back (S n) s = (back n >> goBack) s.
Proof.
  revert s. induction n as [| n IH]; intros s.
  - simpl. unfold bind, ret. destruct (goBack s) as [[] ?|]; reflexivity.
  - assert (Hl : back (S (S n)) s =
                 match goBack s with
                 | Ret _ s1 => back (S n) s1
                 | Throw e s1 => Throw e s1
                 end) by reflexivity.
    assert (Hr : (back (S n) >> goBack) s =
                 match goBack s with
                 | Ret _ s1 => (back n >> goBack) s1
                 | Throw e s1 => Throw e s1
                 end).
    { unfold bind. cbn [back]. unfold bind.
      destruct (goBack s); reflexivity. }
    rewrite Hl, Hr. destruct (goBack s); [apply IH | reflexivity].
Qed.

Lemma walk_and_back (ps : list string) (s : state) :
  moves (currentPage s) ps ->
  (visit ps >> back (length ps)) s = Ret tt s /\
  (pageHistory s = [] -> goBack s = Ret tt (set_navigation "home" [] s)).
Proof.
  intros Hmoves. split.
  - revert s Hmoves. induction ps as [| p ps IH]; intros s Hmoves.
    + reflexivity.
    + destruct Hmoves as [Hp Hrest].
      change (length (p :: ps)) with (S (length ps)).
      assert (Hstep : (visit (p :: ps) >> back (S (length ps))) s =
                      ((visit ps >> back (length ps)) >> goBack)
                        (set_navigation p
                           (pageHistory s ++ [currentPage s])%list s)).
      { cbn [visit]. unfold bind. rewrite (navigateTo_moves p s Hp).
        destruct (visit ps _) as [[] s2 | e s2]; [| reflexivity].
        rewrite back_last. reflexivity. }
      rewrite Hstep. unfold bind at 1.
      rewrite IH by exact Hrest.
      rewrite (goBack_pops _ (pageHistory s) (currentPage s)) by reflexivity.
      destruct s. reflexivity.
  - intros Hempty. unfold goBack, navigateTo. run. rewrite Hempty.
    cbn [andb]. rewrite Hempty. reflexivity.
Qed.

(** X4. [goBack] undoes [navigateTo].  After any walk through the pages
    in which every step leads to another page, as many calls of [goBack]
    as there were steps lead back to the starting page and leave the
    history as it was; on an empty history [goBack] leads home and the
    history stays empty. *)
Theorem goBack_undoes_navigateTo (ps : list string) (s : state) :
  moves (currentPage s) ps ->
  (exists s', (visit ps >> back (length ps)) s = Ret tt s' /\
              currentPage s' = currentPage s /\
              pageHistory s' = pageHistory s) /\
  (pageHistory s = [] ->
   exists s', goBack s = Ret tt s' /\
              currentPage s' = "home" /\ pageHistory s' = []).
Proof.
  intros Hmoves. destruct (walk_and_back ps s Hmoves) as [Hwalk Hhome].
  split.
  - exists s. split; [exact Hwalk | split; reflexivity].
  - intros Hempty. eexists. split; [exact (Hhome Hempty) |].
    split; reflexivity.
Qed.

Lemma showSection_and_back (section : string) (s : state) :
  section <> currentPage s ->
  (showSection section >> goBack) s =
    Ret tt (set_navigation (currentPage s)
              (pageHistory s ++ [currentPage s])%list s) /\
  (showSection section >> goBack >> goBack) s = Ret tt s.
Proof.
  intros Hp.
  assert (Hshow : showSection section s =
            Ret tt (set_navigation section
                      ((pageHistory s ++ [currentPage s]) ++ [currentPage s])%list
                      s)).
  { unfold showSection. unfold bind, write.
    rewrite navigateTo_moves by (destruct s; exact Hp).
    destruct s. reflexivity. }
  assert (Hone : (showSection section >> goBack) s =
            Ret tt (set_navigation (currentPage s)
                      (pageHistory s ++ [currentPage s])%list s)).
  { unfold bind. rewrite Hshow.
    rewrite (goBack_pops _ (pageHistory s ++ [currentPage s])%list
               (currentPage s)) by reflexivity.
    destruct s. reflexivity. }
  split; [exact Hone |].
  unfold bind at 1. unfold bind at 1. rewrite Hshow.
  rewrite (goBack_pops _ (pageHistory s ++ [currentPage s])%list
             (currentPage s)) by reflexivity.
  rewrite (goBack_pops _ (pageHistory s) (currentPage s)) by reflexivity.
  destruct s. reflexivity.
Qed.

(** X5. [showSection] records the page it leaves twice: once itself and
    once through [navigateTo].  One [goBack] after it leads back to the
    page left but keeps that page in the history, so that the next
    [goBack] stays on the same page; only the second restores the
    history. *)
Theorem showSection_needs_two_goBacks (section : string) (s : state) :
  section <> currentPage s ->
  (exists s1, (showSection section >> goBack) s = Ret tt s1 /\
              currentPage s1 = currentPage s /\
              pageHistory s1 = (pageHistory s ++ [currentPage s])%list) /\
  (exists s2, (showSection section >> goBack >> goBack) s = Ret tt s2 /\
              currentPage s2 = currentPage s /\
              pageHistory s2 = pageHistory s).
Proof.
  intros Hp. destruct (showSection_and_back section s Hp) as [Hone Htwo].
  split.
  - eexists. split; [exact Hone | split; reflexivity].
  - exists s. split; [exact Htwo | split; reflexivity].
Qed.

(* ================================================================== *)
(** ** Further properties: a modal opened and closed *)
(* ================================================================== *)

Lemma without_new (h : handler) (l : list handler) :
  made_before (h_id h) l -> without h (l ++ [h]) = l.
Proof.
  unfold without, made_before. intros Hl. rewrite List.filter_app.
  cbn [List.filter]. rewrite Nat.eqb_refl. cbn [negb].
  rewrite app_nil_r. induction Hl as [| x l Hx Hl IH]; [reflexivity |].
  cbn [List.filter].
  assert (Hne : Nat.eqb (h_id x) (h_id h) = false)
    by (apply Nat.eqb_neq; lia).
  rewrite Hne. cbn [negb]. f_equal. exact IH.
Qed.

Ltac step :=
  cbn [stadiums matches users currentUser currentMatch currentMatchTab
       currentPage pageHistory selectedAvatarDataUrl loginAvatarDataUrl
       localStorage requests console now closures dom
       toasts matches_list home_matches match_detail join_match_btn
       profile_header edit_profile modals keydown activeElement
       create_match_form login
       with_dom set_modals set_closures set_activeElement set_keydown
       set_visible set_previouslyFocused set_overlayClick set_keyHandler
       set_mousedown set_aria_hidden
       visible aria_hidden mousedown content _overlayClick _keyHandler
       _previouslyFocused el_focus el_tabbable h_id h_onClose];
  rewrite ?lookup_insert_eq, ?alter_insert_eq, ?insert_insert_eq.

Lemma open_then_close (s : state) (m : modal) (dialog : element)
      (focusable : list element) (el : element) :
  modals (dom s) !! "add-stadium-modal" = Some m ->
  content m = Some (dialog, focusable) ->
  made_before (closures s) (mousedown m) ->
  made_before (closures s) (keydown (dom s)) ->
  activeElement (dom s) = Some el ->
  el_focus el = true -> el_tabbable el = true ->
  (openAddStadiumModal >> closeAddStadiumModal) s =
    Ret tt (reopened "add-stadium-modal" m s).
Proof.
  intros Hm Hc Hmd Hkd Ha Hf Ht. unfold reopened.
  destruct s as [? ? ? ? ? ? ? ? ? ? ? ? ? ? n d].
  destruct d as [? ? ? ? ? ? ? ms kd act ? ?].
  cbn [modals dom closures keydown activeElement] in *. subst act.
  rewrite <- (insert_id ms "add-stadium-modal" m Hm).
  rewrite insert_insert_eq.
  unfold openAddStadiumModal, closeAddStadiumModal, _addModalHandlers,
    _removeModalHandlers, the_modal, update_modal, new_handler.
  unfold focus. run.
  repeat step. rewrite Hc.
  destruct (el_tabbable (hd dialog focusable)); repeat step.
  all: rewrite ?Hf, ?Ht; repeat step.
  all: cbv [with_dom set_modals set_closures set_activeElement set_keydown
            stadiums matches users currentUser currentMatch currentMatchTab
            currentPage pageHistory selectedAvatarDataUrl loginAvatarDataUrl
            localStorage requests console now closures dom
            toasts matches_list home_matches match_detail join_match_btn
            profile_header edit_profile modals keydown activeElement
            create_match_form login];
    repeat step.
  all: rewrite !without_new by
      (cbn [h_id]; first [exact Hmd | exact Hkd
                         | eapply Forall_impl; [exact Hkd | cbv beta; lia]]).
  all: unfold closed; destruct m; reflexivity.
Qed.

(** X6. A modal opened and closed again leaves the page as it was.
    When the element that had the focus can take it back and the page
    holds only listeners made earlier, [openAddStadiumModal] followed by
    [closeAddStadiumModal] leaves the modal hidden with no handler on
    it, the listeners of the modal and of the document as they were and
    the focus where it was; the state differs by the two closures made.
    The Escape key and a press on the overlay itself close the modal in
    the same way; a press inside the dialog does nothing. *)
Theorem modal_opened_and_closed (s : state) (m : modal) (dialog : element)
        (focusable : list element) (el : element) :
  modals (dom s) !! "add-stadium-modal" = Some m ->
  content m = Some (dialog, focusable) ->
  made_before (closures s) (mousedown m) ->
  made_before (closures s) (keydown (dom s)) ->
  activeElement (dom s) = Some el ->
  el_focus el = true -> el_tabbable el = true ->
  (openAddStadiumModal >> closeAddStadiumModal) s =
    Ret tt (reopened "add-stadium-modal" m s) /\
  (openAddStadiumModal >>
   keyHandler (content m) closeAddStadiumModal "Escape" false) s =
    Ret true (reopened "add-stadium-modal" m s) /\
  (openAddStadiumModal >>
   overlayClick "add-stadium-modal" closeAddStadiumModal "add-stadium-modal") s =
    Ret tt (reopened "add-stadium-modal" m s) /\
  (forall target,
      target <> "add-stadium-modal" ->
      overlayClick "add-stadium-modal" closeAddStadiumModal target =
      ret tt) /\
  keydown (dom (reopened "add-stadium-modal" m s)) = keydown (dom s) /\
  activeElement (dom (reopened "add-stadium-modal" m s)) = Some el /\
  modals (dom (reopened "add-stadium-modal" m s)) !! "add-stadium-modal" =
    Some (closed m).
Proof.
  intros Hm Hc Hmd Hkd Ha Hf Ht.
  pose proof (open_then_close s m dialog focusable el Hm Hc Hmd Hkd Ha Hf Ht)
    as Hrun.
  split; [exact Hrun |]. split; [| split; [| split; [| split; [| split]]]].
  - unfold keyHandler. cbn [String.eqb Ascii.eqb Bool.eqb].
    unfold bind in *. destruct (openAddStadiumModal s) as [[] s1 | e s1];
      [| discriminate Hrun].
    rewrite Hrun. reflexivity.
  - unfold overlayClick. rewrite String.eqb_refl. exact Hrun.
  - intros target Htarget. unfold overlayClick.
    apply String.eqb_neq in Htarget. rewrite Htarget. reflexivity.
  - reflexivity.
  - unfold reopened. cbn [dom set_closures with_dom activeElement set_modals].
    exact Ha.
  - unfold reopened. cbn [dom set_closures with_dom modals set_modals].
    apply lookup_insert_eq.
Qed.

(* ================================================================== *)
(** ** Further properties: creating a match and registering *)
(* ================================================================== *)

Section Creating.

Variable E : environment.







Lemma lookup_field_json_copy (k : string) (fs : record) (x : string) :
  lookup_field k fs = VStr x ->
  get_opt (json_copy (VObj fs)) k = VStr x.
Proof.
  unfold get_opt. cbn [json_copy get].
  induction fs as [| [k' v] fs IH]; cbn [lookup_field flat_map];
    [discriminate |].
  destruct (String.eqb k k') eqn:Hk.
  - intros ->. cbn [app lookup_field json_copy]. rewrite Hk. reflexivity.
  - intros H. destruct v; cbn [app lookup_field]; rewrite ?Hk; apply IH; exact H.
Qed.

Lemma submitLogin_existing_storage (s : state) (rs : list record) (u : record) :
  users s = records rs ->
  List.find (phone_is (submitted_phone s)) rs = Some u ->
  login_filled s ->
  localStorage (final_state (submitLogin E s)) =
    <[storage_key := Parses (json_copy (VObj u))]> (localStorage s).
Proof.
  intros Husers Hfind Hfilled.
  assert (Hrun :
    submitLogin E s =
    (navigateTo "home" true >> updateProfileHeader E >> renderEditProfile E)
      (with_notice "✅"
         ("Welcome back, " +:+ to_string (lookup_field "name" u) +:+ "!")
         (set_localStorage
            (<[storage_key := Parses (json_copy (VObj u))]> (localStorage s))
            (set_currentUser (VObj u) s)))).
  { unfold submitLogin. unfold bind at 1. unfold read at 1.
    cbv zeta. rewrite (filled_check s Hfilled).
    unfold bind at 1. unfold read at 1. rewrite Husers.
    unfold bind at 1. unfold lift at 1. rewrite find_phone.
    fold (submitted_phone s). rewrite Hfind. reflexivity. }
  rewrite Hrun.
  unfold navigateTo, updateProfileHeader, renderEditProfile. run. simpl.
  destruct (renderProfileHeader E (VObj u)); [| reflexivity]. simpl.
  destruct (renderProfileForm E (VObj u) _); reflexivity.
Qed.

(** X10. A login survives a reload of the page.  Once [submitLogin] has
    signed in a loaded user whose identifier is a string that is not
    empty, any page that starts from the session store it left and
    loads the users makes the first loaded record with that identifier
    the current user, and nobody when the server no longer lists
    one. *)
Theorem login_survives_reload (s : state) (rs : list record) (u : record)
        (x : string) (reloaded : state) (rs' : list record) (s1 : state) :
  users s = records rs ->
  List.find (phone_is (submitted_phone s)) rs = Some u ->
  login_filled s ->
  lookup_field "_id" u = VStr x -> x <> "" ->
  localStorage reloaded = localStorage (final_state (submitLogin E s)) ->
  apiGet E "/users" reloaded = Ret (VArr (records rs')) s1 ->
  exists s2,
    loadUsers E reloaded = Ret (records rs') s2 /\
    currentUser s2 =
      match List.find (fun r => strict_eq (lookup_field "_id" r) (VStr x)) rs' with
      | Some r => VObj r
      | None => VNull
      end.
Proof.
  intros Husers Hfind Hfilled Hid Hx Hstore Hget.
  rewrite (submitLogin_existing_storage s rs u Husers Hfind Hfilled) in Hstore.
  eexists. split; [apply (loadUsers_records E reloaded rs' s1 Hget) |].
  cbn [currentUser set_currentUser]. unfold restored, saved_id, snapshot.
  rewrite Hstore, lookup_insert_eq.
  rewrite (lookup_field_json_copy "_id" u x Hid).
  cbn [truthy json_copy]. apply String.eqb_neq in Hx. rewrite Hx.
  reflexivity.
Qed.

End Creating.

(* ================================================================== *)
(** ** Further properties: the match lists *)
(* ================================================================== *)

Section Lists.

Variable E : environment.

Lemma Array_find_map (cb : value -> result bool) (p : record -> bool)
      (f : record -> value) (rs : list record) :
  (forall r, cb (f r) = Ok (p r)) ->
  Array_find cb (List.map f rs) =
  Ok (match List.find p rs with Some r => f r | None => VUndefined end).
Proof.
  intros Hcb. induction rs as [| r rs IH]; [reflexivity |].
  cbn [List.map Array_find List.find]. rewrite Hcb. cbn [rbind].
  destruct (p r); [reflexivity | exact IH].
Qed.

Lemma has_id_normalized (id : value) (r : record) :
  has_id id (normalized r) = Ok (strict_eq (lookup_field "_id" r) id).
Proof.
  destruct (normalized_fields r) as (Hid & Hpid & _).
  unfold has_id. rewrite Hpid. cbn [rbind].
  destruct (strict_eq (lookup_field "_id" r) id) eqn:Heq; [reflexivity |].
  rewrite Hid. cbn [rbind]. rewrite Heq. reflexivity.
Qed.

(** X11. After [loadMatches] has stored the records of a successful
    answer, [getMatchById] finds a match by its primary identifier
    alone: normalizing overwrites the alternate identifier with the
    primary one, so an identifier that no record carries as [_id] finds
    nothing, whatever the records carried as [id]. *)
Theorem loaded_matches_are_found_by_primary_id
        (s : state) (res : response) (rs : list record) :
  fetch E (requests s) (get_request "/matches") = Resolved res ->
  ok res = true ->
  json res = Ok (VArr (records rs)) ->
  (forall id,
      (loadMatches E >> getMatchById id) s =
      Ret (match List.find (fun r => strict_eq (lookup_field "_id" r) id) rs with
           | Some r => normalized r
           | None => VUndefined
           end)
          (set_matches (List.map normalized rs)
             (after_call (get_request "/matches") "GET /matches failed:"
                         None s))) /\
  (forall x,
      Forall (fun r => lookup_field "_id" r <> VStr x) rs ->
      exists s', (loadMatches E >> getMatchById (VStr x)) s = Ret VUndefined s').
Proof.
  intros Hfetch Hok Hjson.
  assert (Hrun : forall id,
      (loadMatches E >> getMatchById id) s =
      Ret (match List.find (fun r => strict_eq (lookup_field "_id" r) id) rs with
           | Some r => normalized r
           | None => VUndefined
           end)
          (set_matches (List.map normalized rs)
             (after_call (get_request "/matches") "GET /matches failed:"
                         None s))).
  { intros id. unfold loadMatches. unfold bind at 1. unfold bind at 1.
    unfold bind at 1. rewrite apiGet_run. rewrite Hfetch.
    unfold caught, decoded. rewrite Hok. destruct res as [code body].
    cbn [json] in Hjson. subst body. cbn [truthy json].
    unfold bind at 1. unfold lift at 1. unfold payload_map.
    rewrite (Array_map_records normalizeMatch normalized rs normalizeMatch_record).
    unfold write, read, getMatchById, bind, read, lift.
    cbn [matches set_matches].
    rewrite (Array_find_map (has_id id)
               (fun r => strict_eq (lookup_field "_id" r) id) normalized rs
               (has_id_normalized id)).
    reflexivity. }
  split; [exact Hrun |].
  intros x Hnone. rewrite Hrun. eexists.
  destruct (List.find _ rs) as [r |] eqn:Hfind; [| reflexivity].
  apply find_some in Hfind. destruct Hfind as [Hin Heq].
  rewrite Forall_forall in Hnone. apply list_elem_of_In in Hin.
  specialize (Hnone r Hin).
  destruct (lookup_field "_id" r); try discriminate Heq.
  cbn [strict_eq] in Heq. apply String.eqb_eq in Heq. subst. congruence.
Qed.

Lemma Array_filter_records_on (cb : value -> result bool) (p : record -> bool)
      (rs : list record) :
  Forall (fun r => cb (VObj r) = Ok (p r)) rs ->
  Array_filter cb (records rs) = Ok (records (List.filter p rs)).
Proof.
  intros Hcb. induction Hcb as [| r rs Hr Hrs IH]; [reflexivity |].
  cbn [records List.map Array_filter List.filter]. rewrite Hr. cbn [rbind].
  fold (records rs). rewrite IH. cbn [rbind].
  destruct (p r); reflexivity.
Qed.

Lemma renderMatchesList_lists (s : state) (shown : list record) :
  tab_filter E (currentMatchTab s) (currentUser s) (matches s) =
    Ok (records shown) ->
  lists E s shown.
Proof.
  intros Hfilter cards Hcards. unfold renderMatchesList, render_cards. run.
  rewrite Hfilter. destruct shown as [| m0 rest]; [reflexivity |].
  change (records (m0 :: rest)) with (VObj m0 :: records rest) in *.
  cbv beta iota. rewrite Hcards. reflexivity.
Qed.


(** X13. The other tabs of the match list.  The open tab lists exactly
    the matches whose status is [open]; the my tab, for a signed-in
    user and matches that carry a players array, exactly the matches
    whose players include the user's name; any other tab but the past
    one lists every match.  Each keeps the order of [matches]. *)
Theorem open_my_and_all_tabs (s : state) (ms : list record) :
  matches s = records ms ->
  (currentMatchTab s = "open" ->
   lists E s (List.filter
                (fun m => strict_eq (lookup_field "status" m) (VStr "open"))
                ms)) /\
  (currentMatchTab s = "my" ->
   forall u : record,
     currentUser s = VObj u ->
     Forall (fun m => exists ps, lookup_field "players" m = VArr ps) ms ->
     lists E s (List.filter (has_player (lookup_field "name" u)) ms)) /\
  (currentMatchTab s <> "open" -> currentMatchTab s <> "my" ->
   currentMatchTab s <> "past" ->
   lists E s ms).
Proof.
  intros Hms. split; [| split].
  - intros Htab. apply renderMatchesList_lists. rewrite Htab, Hms.
    unfold tab_filter. cbn [String.eqb Ascii.eqb Bool.eqb].
    apply Array_filter_records. reflexivity.
  - intros Htab u Hu Hplayers. apply renderMatchesList_lists.
    rewrite Htab, Hms, Hu. unfold tab_filter.
    cbn [String.eqb Ascii.eqb Bool.eqb].
    apply Array_filter_records_on.
    eapply Forall_impl; [exact Hplayers |].
    intros m [ps Hps]. unfold players_include, has_player.
    cbn [get rbind]. rewrite Hps. reflexivity.
  - intros Hopen Hmy Hpast. apply renderMatchesList_lists. rewrite Hms.
    unfold tab_filter.
    apply String.eqb_neq in Hopen, Hmy, Hpast.
    rewrite Hopen, Hmy, Hpast. reflexivity.
Qed.

Lemma openMatchDetail_frame (id : value) (s : state) :
  toasts (dom (final_state (openMatchDetail E id s))) = toasts (dom s) /\
  requests (final_state (openMatchDetail E id s)) = requests s.
Proof.
  unfold openMatchDetail, getMatchById, getStadiumById, navigateTo. run.
  destruct (Array_find (has_id id) (matches s)) as [m | e];
    [| split; reflexivity].
  cbn [final_state]. destruct (negb (truthy m)); [split; reflexivity |].
  destruct (get m "stadiumId") as [sid | e]; [| split; reflexivity].
  cbn [stadiums set_currentMatch].
  destruct (payload_find (stadiums s) (has_id sid)) as [found | e];
    [| split; reflexivity].
  destruct (truthy found).
  - destruct (renderMatchDetail E found m); [| split; reflexivity].
    cbn [currentUser with_dom set_currentMatch].
    destruct (joinButton m (currentUser s)); split; reflexivity.
  - destruct (get m "_stadium") as [st | e]; [| split; reflexivity].
    destruct (renderMatchDetail E st m); [| split; reflexivity].
    cbn [currentUser with_dom set_currentMatch].
    destruct (joinButton m (currentUser s)); split; reflexivity.
Qed.

Lemma joinMatch_failed (s : state) (m u : record) :
  currentMatch s = VObj m ->
  currentUser s = VObj u ->
  call_fails (fetch E (requests s)
                (join_request (shown_id m) (lookup_field "name" u))) ->
  toasts (dom (final_state (joinMatch E s))) =
    (toasts (dom s) ++
     [success_notice (to_string (lookup_field "title" m))])%list /\
  requests (final_state (joinMatch E s)) =
    (requests s ++ [join_request (shown_id m) (lookup_field "name" u);
                    get_request "/matches"])%list.
Proof.
  intros Hm Hu Hfail.
  remember (final_state (joinMatch E s)) as sf eqn:Hsf.
  unfold joinMatch in Hsf. unfold bind at 1 in Hsf. unfold read at 1 in Hsf.
  rewrite Hm in Hsf. cbn [truthy negb] in Hsf.
  unfold bind at 1 in Hsf. unfold lift at 1 in Hsf. cbn [get] in Hsf.
  unfold bind at 1 in Hsf.
  assert (Hid : (if truthy (lookup_field "_id" m)
                 then ret (lookup_field "_id" m)
                 else lift (Ok (lookup_field "id" m))) s =
                Ret (shown_id m) s).
  { unfold shown_id, js_or. destruct (truthy (lookup_field "_id" m));
      reflexivity. }
  rewrite Hid in Hsf.
  unfold bind at 1 in Hsf. unfold read at 1 in Hsf. rewrite Hu in Hsf.
  unfold bind at 1 in Hsf. unfold lift at 1 in Hsf. cbn [get] in Hsf.
  unfold bind at 1 in Hsf.
  fold (post_request ("/matches/" +:+ to_string (shown_id m) +:+ "/join")
          (VObj [("playerName", lookup_field "name" u)])) in Hfail.
  change (join_request (shown_id m) (lookup_field "name" u)) with
    (post_request ("/matches/" +:+ to_string (shown_id m) +:+ "/join")
       (VObj [("playerName", lookup_field "name" u)])) in *.
  rewrite apiPost_run in Hsf.
  destruct (caught_failure _ Hfail) as [err Herr]. rewrite Herr in Hsf.
  cbn [truthy] in Hsf.
  match type of Hsf with context [after_call ?r ?l ?c s] =>
    pose proof (after_call_requests r l c s) as (Hreq & Hdom & _);
    assert (Hm1 : currentMatch (after_call r l c s) = VObj m)
      by (unfold after_call; rewrite <- Hm; reflexivity);
    set (s1 := after_call r l c s) in *
  end.
  clearbody s1.
  unfold bind at 1 in Hsf. unfold read at 1 in Hsf.
  rewrite Hm1 in Hsf.
  unfold bind at 1 in Hsf. unfold lift at 1 in Hsf. cbn [get] in Hsf.
  unfold bind at 1 in Hsf. unfold showToast at 1, write at 1 in Hsf.
  set (s2 := with_dom _ s1) in Hsf.
  assert (Hr2 : requests s2 = requests s1) by reflexivity.
  assert (Ht2 : toasts (dom s2) =
                (toasts (dom s) ++
                 [success_notice (to_string (lookup_field "title" m))])%list)
    by (subst s2; cbn [dom with_dom toasts set_toasts]; rewrite Hdom;
        reflexivity).
  clearbody s2.
  pose proof (loadMatches_frame E s2) as (Hd3 & Hr3).
  unfold bind at 1 in Hsf.
  destruct (loadMatches E s2) as [ms s3 | e s3]; cbn [final_state] in Hd3, Hr3.
  - pose proof (openMatchDetail_frame (shown_id m) s3) as (Ht4 & Hr4).
    subst sf. rewrite Ht4, Hr4, Hd3, Hr3, Hr2, Ht2, Hreq.
    split; [reflexivity |]. rewrite <- app_assoc. reflexivity.
  - cbn [final_state] in Hsf. subst sf. rewrite Hd3, Hr3, Hr2, Ht2, Hreq.
    split; [reflexivity |]. rewrite <- app_assoc. reflexivity.
Qed.


(** X14. Joining from the detail page.  With no match on show
    [joinMatch] does nothing; for a guest it throws before anything is
    sent; and when the join call of a signed-in user fails it still
    takes the branch of a success: it shows the notice of a join with
    the title of the match on show and loads the matches again, and the
    notice of a failure is not shown. *)
Theorem joinMatch_failed_call (s : state) :
  (truthy (currentMatch s) = false -> joinMatch E s = Ret tt s) /\
  (forall m : record,
      currentMatch s = VObj m -> currentUser s = VNull ->
      joinMatch E s = Throw (cannot_read VNull "name") s) /\
  (forall m u : record,
      currentMatch s = VObj m ->
      currentUser s = VObj u ->
      call_fails (fetch E (requests s)
                    (join_request (shown_id m) (lookup_field "name" u))) ->
      toasts (dom (final_state (joinMatch E s))) =
        (toasts (dom s) ++
         [success_notice (to_string (lookup_field "title" m))])%list /\
      requests (final_state (joinMatch E s)) =
        (requests s ++ [join_request (shown_id m) (lookup_field "name" u);
                        get_request "/matches"])%list).
Proof.
  split; [| split].
  - intros Hnone. unfold joinMatch. unfold bind at 1. unfold read at 1.
    rewrite Hnone. reflexivity.
  - intros m Hm Hguest. unfold joinMatch. unfold bind at 1. unfold read at 1.
    rewrite Hm. cbn [truthy negb].
    unfold bind at 1. unfold lift at 1. cbn [get].
    unfold bind at 1.
    destruct (truthy (lookup_field "_id" m)); unfold ret, lift;
      unfold bind at 1; unfold read at 1; rewrite Hguest; reflexivity.
  - intros m u. apply joinMatch_failed.
Qed.

End Lists.

(* ================================================================== *)
(** ** The properties at work *)
(* ================================================================== *)

(** C5. The defect at work: the server refuses the join with status 400
    and an error message, and [joinMatchById] shows the success notice
    (for a match titled undefined), reloads and redraws the matches, and
    never shows the failure notice. *)
Theorem joinMatchById_refused_join_runs_success_path :
  fetch online (requests signed_in) (join_request (VStr "m1") (VStr "Ali R.")) =
    answer 400 (VObj [("error", VStr "Match is full")]) /\
  apiPost online "/matches/m1/join" (VObj [("playerName", VStr "Ali R.")])
          signed_in =
    Ret (VObj [("error", VStr "Match is full")])
        (set_console [("POST /matches/m1/join failed:", Error "Match is full")]
           (set_requests [join_request (VStr "m1") (VStr "Ali R.")] signed_in)) /\
  toasts (dom (final_state (joinMatchById online (VStr "m1") signed_in))) =
    [success_notice "undefined"] /\
  ~ In failure_notice
       (toasts (dom (final_state (joinMatchById online (VStr "m1") signed_in)))) /\
  requests (final_state (joinMatchById online (VStr "m1") signed_in)) =
    [join_request (VStr "m1") (VStr "Ali R.");
     {| method := "GET"; endpoint := "/matches"; body := None |}] /\
  matches_list (dom (final_state (joinMatchById online (VStr "m1") signed_in))) =
    Some (Cards ["Friday five"]).
Proof.
  split; [reflexivity |]. split; [reflexivity |].
  split; [reflexivity |]. split; [| split; reflexivity].
  intros [H | []]. discriminate H.
Qed.

(** C1 at work: on reload the current user becomes the freshly loaded
    record of the saved identifier, and [null] when the server has
    dropped that user; Omar, who was current before, is not kept. *)
Lemma loadUsers_rehydrates_witness :
  currentUser (final_state (loadUsers online returning)) = VObj ali /\
  currentUser (final_state (loadUsers online dropped)) = VNull.
Proof.
  split.
  - destruct (loadUsers_rehydrates online returning [ali; omar]
                (set_requests [{| method := "GET"; endpoint := "/users";
                                  body := None |}] returning) eq_refl)
      as (s2 & Hrun & _ & Hid & _).
    rewrite Hrun. cbn [final_state].
    assert (Hsaved : saved_id returning = Some (VStr "u1"))
      by (vm_compute; reflexivity).
    destruct (Hid (VStr "u1") Hsaved) as [Hfound _].
    apply Hfound.
    + left. reflexivity.
    + reflexivity.
    + intros r' [<- | [<- | []]] Hr'; [reflexivity | discriminate Hr'].
  - destruct (loadUsers_rehydrates online dropped [ali; omar]
                (set_requests [{| method := "GET"; endpoint := "/users";
                                  body := None |}] dropped) eq_refl)
      as (s2 & Hrun & _ & Hid & _).
    rewrite Hrun. cbn [final_state].
    assert (Hsaved : saved_id dropped = Some (VStr "u9"))
      by (vm_compute; reflexivity).
    destruct (Hid (VStr "u9") Hsaved) as [_ Hnone].
    apply Hnone.
    intros r [<- | [<- | []]]; reflexivity.
Defined.

(** C2 at work: a stadium found by its alternate identifier, the next by
    its primary one, a match by either, and nothing for an unknown
    identifier. *)
Lemma lookup_by_either_identifier_witness :
  getStadiumById (VStr "s7") two_origins = Ret (VObj legacy_pitch) two_origins /\
  getStadiumById (VStr "s1") two_origins = Ret (VObj arena) two_origins /\
  getMatchById (VStr "m1") two_origins = Ret (VObj stored_friendly) two_origins /\
  getStadiumById (VStr "s0") two_origins = Ret VUndefined two_origins.
Proof.
  split; [| split; [| split]].
  - destruct (lookup_by_either_identifier two_origins (VStr "s7")
                [legacy_pitch; arena]) as [Hst _].
    destruct (Hst eq_refl) as [Hfirst _].
    apply (Hfirst [] legacy_pitch [arena] eq_refl).
    + constructor.
    + right. reflexivity.
  - destruct (lookup_by_either_identifier two_origins (VStr "s1")
                [legacy_pitch; arena]) as [Hst _].
    destruct (Hst eq_refl) as [Hfirst _].
    apply (Hfirst [legacy_pitch] arena [] eq_refl).
    + constructor; [| constructor]. intros [H | H]; discriminate H.
    + left. reflexivity.
  - destruct (lookup_by_either_identifier two_origins (VStr "m1")
                [stored_friendly]) as [_ Hm].
    destruct (Hm eq_refl) as [Hfirst _].
    apply (Hfirst [] stored_friendly [] eq_refl).
    + constructor.
    + right. reflexivity.
  - destruct (lookup_by_either_identifier two_origins (VStr "s0")
                [legacy_pitch; arena]) as [Hst _].
    destruct (Hst eq_refl) as [_ Hnone].
    apply Hnone. intros r [<- | [<- | []]] [H | H]; discriminate H.
Defined.

(** C3 at work: offline, the three loaders keep what was loaded; online,
    they replace it with what the server lists. *)
Lemma loaders_keep_or_replace_witness :
  loadStadiums offline guest =
    Ret (stadiums guest)
        (set_console [("GET /stadiums failed:", TypeError "Failed to fetch")]
           (set_requests [{| method := "GET"; endpoint := "/stadiums";
                             body := None |}] guest)) /\
  matches (final_state (loadMatches offline guest)) = matches guest /\
  users (final_state (loadUsers offline guest)) = users guest /\
  stadiums (final_state (loadStadiums online initial)) = VArr [VObj arena] /\
  matches (final_state (loadMatches online initial)) = [normalized friendly] /\
  users (final_state (loadUsers online initial)) = records [ali; omar].
Proof.
  destruct (loaders_keep_or_replace offline guest)
    as (Hs0 & Hm0 & Hu0 & _).
  destruct (loaders_keep_or_replace online initial)
    as (_ & _ & _ & Hs1 & Hm1 & Hu1 & _).
  split; [| split; [| split; [| split; [| split]]]].
  - apply (Hs0 _ eq_refl).
  - destruct (Hm0 _ eq_refl) as [Hrun _]. rewrite Hrun. reflexivity.
  - destruct (Hu0 _ eq_refl) as [Hrun _]. rewrite Hrun. reflexivity.
  - rewrite (Hs1 [VObj arena] _ eq_refl). reflexivity.
  - rewrite (Hm1 [friendly] _ eq_refl). reflexivity.
  - apply (Hu1 [VObj ali; VObj omar] _ eq_refl).
Defined.

(** C4 at work: Ali has joined the friendly, so its detail page shows the
    disabled Already Joined; the derby, which he is not in, is full; and
    Omar, who is not in the friendly, may join it. *)
Lemma join_button_three_states_witness :
  join_match_btn
    (dom (final_state (openMatchDetail online (VStr "m1") signed_in)))
  = already_joined /\
  join_match_btn
    (dom (final_state (openMatchDetail online (VStr "m2") two_matches)))
  = match_is_full /\
  join_match_btn
    (dom (final_state (openMatchDetail online (VStr "m1") omar_signed_in)))
  = join_this_match.
Proof.
  split; [| split].
  - destruct (join_button_three_states online signed_in (VStr "m1") [arena]
                stored_friendly ali [VStr "Ali R."]
                eq_refl eq_refl
                (fun stadium => ex_intro _ "Friday five" eq_refl)
                eq_refl eq_refl)
      as (s' & Hrun & Hjoined & _).
    rewrite Hrun. cbn [final_state]. apply Hjoined.
    apply Exists_cons_hd. reflexivity.
  - destruct (join_button_three_states online two_matches (VStr "m2") [arena]
                derby ali [VStr "Omar B."; VStr "Karim D."]
                eq_refl eq_refl
                (fun stadium => ex_intro _ "Derby" eq_refl)
                eq_refl eq_refl)
      as (s' & Hrun & _ & Hfull & _).
    rewrite Hrun. cbn [final_state]. apply Hfull; [| reflexivity].
    intros Hin. apply is_member_string in Hin.
    destruct Hin as [H | [H | []]]; discriminate H.
  - destruct (join_button_three_states online omar_signed_in (VStr "m1")
                [arena] stored_friendly omar [VStr "Ali R."]
                eq_refl eq_refl
                (fun stadium => ex_intro _ "Friday five" eq_refl)
                eq_refl eq_refl)
      as (s' & Hrun & _ & _ & Hjoin & _).
    rewrite Hrun. cbn [final_state]. apply Hjoin; [| discriminate].
    intros Hin. apply is_member_string in Hin.
    destruct Hin as [H | []]. discriminate H.
Defined.

(** C6 at work: room for four, four friends ticked and the creator. *)
Lemma createMatch_rejects_over_capacity_witness :
  exists message,
    createMatch online crowded_form = Ret tt (with_notice "⚠️" message crowded_form) /\
    requests (with_notice "⚠️" message crowded_form) = requests crowded_form.
Proof.
  apply (createMatch_rejects_over_capacity online crowded_form 4).
  - reflexivity.
  - reflexivity.
Defined.

(** C8 at work: of a match of 10 February 2026 and one of 20 February
    2026, the past tab lists the first alone. *)
Lemma past_tab_fixed_threshold_witness :
  (exists b, is_past online (VObj friendly) = Ok b /\ b = true) /\
  renderMatchesList online (set_currentMatchTab "past" two_matches) =
    Ret tt (with_dom (set_matches_list (Some (Cards ["Friday five"])))
                     (set_currentMatchTab "past" two_matches)).
Proof.
  destruct (past_tab_fixed_threshold online) as (_ & Hpast & _ & _ & Htab).
  split.
  - destruct (Hpast friendly) as (b & Hb & Hiff).
    exists b. split; [exact Hb |].
    apply Hiff. exists 1770681600000. split; reflexivity.
  - destruct (Htab (set_currentMatchTab "past" two_matches)
                   [stored_friendly; derby] eq_refl eq_refl)
      as (_ & Hshown & _).
    assert (Hkept : dated_before online february_14_2026
                      [stored_friendly; derby] = [stored_friendly])
      by (vm_compute; reflexivity).
    rewrite Hkept in Hshown.
    apply (Hshown ["Friday five"]). vm_compute. reflexivity.
Defined.

(** C10 at work: a guest joins, asks for the my tab, opens a match. *)
Lemma guest_name_reads_throw_witness :
  joinMatchById online (VStr "m1") guest =
    Throw (cannot_read VNull "name") guest /\
  (exists msg, renderMatchesList online (set_currentMatchTab "my" guest) =
               Throw (TypeError msg) (set_currentMatchTab "my" guest)) /\
  (exists msg s', openMatchDetail online (VStr "m1") guest =
                  Throw (TypeError msg) s').
Proof.
  split; [| split].
  - destruct (guest_name_reads_throw online guest eq_refl)
      as (_ & _ & _ & _ & Hjoin).
    apply Hjoin.
  - destruct (guest_name_reads_throw online (set_currentMatchTab "my" guest)
                eq_refl) as (_ & _ & _ & Hmy & _).
    apply Hmy; [reflexivity | discriminate].
  - destruct (guest_name_reads_throw online guest eq_refl)
      as (_ & _ & Hopen & _).
    destruct (Hopen (VStr "m1") [arena] stored_friendly eq_refl eq_refl
                (fun stadium => ex_intro _ "Friday five" eq_refl))
      as (msg & s' & Hrun & _).
    exists msg, s'. exact Hrun.
Defined.

(** C7 as first stated fails: the phone number is Ali's, who is loaded,
    but the name field is blank, so [submitLogin] shows its notice and
    returns with the guest still current. *)
Lemma submitLogin_blank_name_counterexample :
  Array_find (has_phone (submitted_phone nameless_login)) (users nameless_login)
    = Ok (VObj ali) /\
  submitLogin online nameless_login =
    Ret tt (with_notice "⚠️" "Please fill in all fields!" nameless_login) /\
  currentUser (final_state (submitLogin online nameless_login)) = VNull /\
  ~ (forall (E : environment) (s : state) (u : record),
        Array_find (has_phone (submitted_phone s)) (users s) = Ok (VObj u) ->
        currentUser (final_state (submitLogin E s)) = VObj u).
Proof.
  assert (Hphone : Array_find (has_phone (submitted_phone nameless_login))
                              (users nameless_login) = Ok (VObj ali))
    by (vm_compute; reflexivity).
  split; [exact Hphone |].
  split; [vm_compute; reflexivity |].
  split; [vm_compute; reflexivity |].
  intros H. specialize (H online nameless_login ali Hphone).
  vm_compute in H. discriminate H.
Qed.

(** C7 as amended, at work: the same phone number (typed with spaces
    around it) on a complete form signs Ali in, stores him and sends
    nothing. *)
Lemma submitLogin_existing_user_witness :
  currentUser (final_state (submitLogin online complete_login)) = VObj ali /\
  localStorage (final_state (submitLogin online complete_login)) =
    {[ storage_key := Parses (VObj ali) ]} /\
  requests (final_state (submitLogin online complete_login)) = [].
Proof.
  assert (Hfirst : List.find (phone_is (submitted_phone complete_login))
                              [ali; omar] = Some ali)
    by (vm_compute; reflexivity).
  destruct (submitLogin_existing_user online complete_login [ali; omar] ali
              eq_refl Hfirst) as [Hfilled Hquiet].
  assert (Hform : login_filled complete_login)
    by (repeat split; intros H; vm_compute in H; discriminate H).
  destruct (Hfilled Hform) as (Hcurrent & Hstored & _).
  split; [exact Hcurrent |]. split; [| exact Hquiet].
  rewrite Hstored. vm_compute. reflexivity.
Defined.

(** [trim] strips every white space character of the language, at both
    ends, and [parseInt] skips it; the zero width space and the next
    line character are none. *)
Lemma trim_white_space :
  Forall (fun u => trim (unit_text u) = "" /\
                   trim (unit_text u +:+ "Ali R." +:+ unit_text u) = "Ali R." /\
                   parseInt (unit_text u +:+ "24") = VNum 24)
         white_space /\
  Forall (fun u => trim (unit_text u) = unit_text u) [133; 6158; 8203].
Proof.
  split; unfold white_space;
    repeat (constructor; [vm_compute; repeat split; reflexivity |]);
    constructor.
Qed.

(** A name of white space only is a blank name: with a no-break space for
    a name and Ali's phone number, [submitLogin] asks for all fields and
    the guest stays. *)
Lemma submitLogin_no_break_space_name :
  ~ login_filled spaced_login /\
  submitLogin online spaced_login =
    Ret tt (with_notice "⚠️" "Please fill in all fields!" spaced_login) /\
  currentUser (final_state (submitLogin online spaced_login)) = VNull.
Proof.
  split; [| split; vm_compute; reflexivity].
  intros (Hname & _). apply Hname. vm_compute. reflexivity.
Qed.

(** C9 at work: the add-stadium modal is opened, closed, and closed
    again. *)
Lemma closing_a_modal_is_idempotent_witness :
  exists s1 m1,
    _removeModalHandlers "add-stadium-modal" modal_open = Ret tt s1 /\
    modals (dom s1) !! "add-stadium-modal" = Some m1 /\
    aria_hidden m1 = Some "true" /\
    _overlayClick m1 = None /\
    _keyHandler m1 = None /\
    _previouslyFocused m1 = None /\
    _removeModalHandlers "add-stadium-modal" s1 = Ret tt s1.
Proof.
  eapply closing_a_modal_is_idempotent. vm_compute. reflexivity.
Defined.

(** Opening the modal registers two listeners, moves the focus into the
    dialog and shows it to assistive technology; closing it undoes all
    three; closing it once more returns and changes nothing. *)
Lemma closeAddStadiumModal_twice :
  activeElement (dom modal_open) = Some name_input /\
  List.length (keydown (dom modal_open)) = 1%nat /\
  (aria_hidden <$> modals (dom modal_open) !! "add-stadium-modal")
    = Some (Some "false") /\
  closeAddStadiumModal modal_open = Ret tt owner_page_closed /\
  closeAddStadiumModal owner_page_closed = Ret tt owner_page_closed /\
  activeElement (dom owner_page_closed) = Some add_button /\
  keydown (dom owner_page_closed) = [] /\
  modals (dom owner_page_closed) !! "add-stadium-modal" = Some fresh_modal.
Proof. vm_compute. repeat split. Qed.

(** With room for five the same submission goes out as a create-match
    request. *)
Lemma createMatch_within_capacity_posts :
  List.map (fun r => (method r, endpoint r))
           (requests (final_state (createMatch online roomy_form)))
  = [("POST", "/matches"); ("GET", "/matches")].
Proof. vm_compute. reflexivity. Qed.

(** A complete form with a phone number that no loaded user has sends
    the create-user request. *)
Lemma submitLogin_new_phone_registers :
  List.find (phone_is (submitted_phone newcomer_login)) [ali; omar] = None /\
  List.map (fun r => (method r, endpoint r))
           (requests (final_state (submitLogin online newcomer_login)))
  = [("POST", "/users")].
Proof. vm_compute. split; reflexivity. Qed.

(** *** The further properties at work *)

(** X1 at work: without a network [apiGet] returns [null] and prints the
    failure. *)
Lemma reading_calls_never_throw_witness :
  apiGet offline "/matches" guest =
    Ret VNull
        (set_console [("GET /matches failed:", TypeError "Failed to fetch")]
           (set_requests [get_request "/matches"] guest)) /\
  call_fails (fetch offline [] (get_request "/matches")).
Proof.
  destruct (reading_calls_never_throw offline "/matches" guest)
    as (Hget & _ & Hfails).
  split.
  - rewrite Hget. vm_compute. reflexivity.
  - apply (Hfails api_error). eexists. vm_compute. reflexivity.
Defined.

(** X2 at work: the server refuses a join with status 400 and a reason;
    [apiPost] returns the reason under [error]. *)
Lemma writing_calls_never_throw_witness :
  exists s',
    apiPost online "/matches/m1/join" (VObj [("playerName", VStr "Ali R.")])
            signed_in =
    Ret (VObj [("error", VStr "Match is full")]) s'.
Proof.
  destruct (writing_calls_never_throw online "/matches/m1/join"
              (VObj [("playerName", VStr "Ali R.")]) signed_in)
    as (Hpost & _).
  eexists. rewrite Hpost. vm_compute. reflexivity.
Defined.

(** X3 at work: Ali saved is Ali read back. *)
Lemma session_store_round_trip_witness :
  exists s', (saveCurrentUser (VObj ali) >> getSavedUser) guest
             = Ret (VObj ali) s'.
Proof.
  destruct (session_store_round_trip (VObj ali) guest) as (_ & Hback & _).
  eexists. apply Hback; reflexivity.
Defined.

(** X4 at work: three pages visited from the home page, three steps
    back. *)
Lemma goBack_undoes_navigateTo_witness :
  (exists s', (visit ["matches"; "profile"; "map"] >> back 3) guest
              = Ret tt s' /\
              currentPage s' = "home" /\ pageHistory s' = []) /\
  (exists s', goBack guest = Ret tt s' /\
              currentPage s' = "home" /\ pageHistory s' = []).
Proof.
  assert (Hmoves : moves (currentPage guest) ["matches"; "profile"; "map"])
    by (cbn; repeat split; discriminate).
  destruct (goBack_undoes_navigateTo ["matches"; "profile"; "map"] guest Hmoves)
    as [Hwalk Hhome].
  split; [exact Hwalk | exact (Hhome eq_refl)].
Defined.

(** X5 at work: the profile section shown from the home page. *)
Lemma showSection_needs_two_goBacks_witness :
  (exists s1, (showSection "profile" >> goBack) guest = Ret tt s1 /\
              currentPage s1 = "home" /\ pageHistory s1 = ["home"]) /\
  (exists s2, (showSection "profile" >> goBack >> goBack) guest = Ret tt s2 /\
              currentPage s2 = "home" /\ pageHistory s2 = []).
Proof.
  apply (showSection_needs_two_goBacks "profile" guest). discriminate.
Defined.

(** X6 at work: the add-stadium modal of the owner's page. *)
Lemma modal_opened_and_closed_witness :
  (openAddStadiumModal >> closeAddStadiumModal) owner_page =
    Ret tt (reopened "add-stadium-modal" fresh_modal owner_page) /\
  activeElement (dom (reopened "add-stadium-modal" fresh_modal owner_page)) =
    Some add_button.
Proof.
  assert (Hm : modals (dom owner_page) !! "add-stadium-modal" = Some fresh_modal)
    by (vm_compute; reflexivity).
  assert (Hmd : made_before (closures owner_page) (mousedown fresh_modal))
    by constructor.
  assert (Hkd : made_before (closures owner_page) (keydown (dom owner_page)))
    by constructor.
  destruct (modal_opened_and_closed owner_page fresh_modal stadium_dialog
              [name_input] add_button Hm eq_refl Hmd Hkd eq_refl eq_refl
              eq_refl)
    as (Hrun & _ & _ & _ & _ & Hfocus & _).
  split; [exact Hrun | exact Hfocus].
Defined.




(** X11 at work: the Friday match is found by its primary identifier
    once loaded. *)
Lemma loaded_matches_are_found_by_primary_id_witness :
  exists s', (loadMatches online >> getMatchById (VStr "m1")) guest =
             Ret (normalized friendly) s'.
Proof.
  destruct (loaded_matches_are_found_by_primary_id online guest
              {| status := 200; json := Ok (VArr (records [friendly])) |}
              [friendly] eq_refl eq_refl eq_refl) as (Hfound & _).
  eexists. rewrite Hfound. reflexivity.
Defined.


(** X13 at work: of the two matches the open tab lists the Friday one. *)
Lemma open_my_and_all_tabs_witness :
  renderMatchesList online open_tab =
    Ret tt (with_dom (set_matches_list (Some (Cards ["Friday five"])))
                     open_tab).
Proof.
  destruct (open_my_and_all_tabs online open_tab [stored_friendly; derby]
              eq_refl) as (Hopen & _).
  apply (Hopen eq_refl ["Friday five"]). vm_compute. reflexivity.
Defined.

(** X14 at work: the server refuses Ali's join from the detail page, and
    the page says he joined. *)
Lemma joinMatch_failed_call_witness :
  toasts (dom (final_state (joinMatch online match_on_show))) =
    [success_notice "Friday five"].
Proof.
  destruct (joinMatch_failed_call online match_on_show) as (_ & _ & Hfail).
  assert (Hrefused : call_fails
            (fetch online (requests match_on_show)
               (join_request (shown_id stored_friendly)
                             (lookup_field "name" ali))))
    by (left; vm_compute; reflexivity).
  destruct (Hfail stored_friendly ali eq_refl eq_refl Hrefused) as (Ht & _).
  rewrite Ht. vm_compute. reflexivity.
Defined.

(** X10 at work: Ali logs in, the page is loaded again, and Ali is
    back. *)
Lemma login_survives_reload_witness :
  exists s2, loadUsers online after_login_reload = Ret (records [ali; omar]) s2
             /\ currentUser s2 = VObj ali.
Proof.
  assert (Hfirst : List.find (phone_is (submitted_phone complete_login))
                              [ali; omar] = Some ali)
    by (vm_compute; reflexivity).
  assert (Hform : login_filled complete_login)
    by (repeat split; intros H; vm_compute in H; discriminate H).
  assert (Hstore : localStorage after_login_reload =
                   localStorage (final_state (submitLogin online complete_login)))
    by (vm_compute; reflexivity).
  assert (Hget : apiGet online "/users" after_login_reload =
                 Ret (VArr (records [ali; omar]))
                     (set_requests [get_request "/users"] after_login_reload))
    by (vm_compute; reflexivity).
  assert (Hx : "u1" <> "") by discriminate.
  destruct (login_survives_reload online complete_login [ali; omar] ali "u1"
              after_login_reload [ali; omar] _
              eq_refl Hfirst Hform eq_refl Hx Hstore Hget)
    as (s2 & Hrun & Hcur).
  exists s2. split; [exact Hrun | exact Hcur].
Defined.
